(** * QPay payment integration: processor adapter and checkout views

    A shallow embedding of
      - ecommerce/extensions/payment/processors/qpay.py  (class [Qpay])
      - ecommerce/extensions/payment/views/qpay.py        (the three views)
    followed by the properties of the confirmation, refund and callback
    workflows.

    Python dictionaries decoded from JSON are association lists, exceptions
    are values of [exn], and every function that talks to the gateway, the
    database or the logger is a computation in a state-and-exception monad
    over a [World] that records what was done. *)

From Stdlib Require Import ZArith NArith List String Ascii Bool Lia.
Import ListNotations.
Local Open Scope string_scope.
Local Open Scope Z_scope.
Set Warnings "-register-all".

(* ================================================================== *)
(** ** Python values *)

(** Values produced by [response.json()]. A decoded object keeps its keys
    in document order; iteration over a dict yields its keys. *)
Inductive json : Type :=
| JNull
| JBool (b : bool)
| JNum (n : Z)
| JFloat (repr : string)
| JStr (s : string)
| JArr (xs : list json)
| JObj (kvs : list (string * json)).

(** The exceptions that can travel through this code. *)
Inductive exn : Type :=
| KeyError (key : string)
| TypeError
| AttributeError
| AssertionError
| OrderNotPaidException
| MultipleObjectsReturned
| ObjectDoesNotExist
| RequestException (detail : string)
| DatabaseError (detail : string)
| DecimalException (detail : string)
| OtherError (detail : string).

(** [type(ex).__name__] *)
Definition exn_name (e : exn) : string :=
  match e with
  | KeyError _ => "KeyError"
  | TypeError => "TypeError"
  | AttributeError => "AttributeError"
  | AssertionError => "AssertionError"
  | OrderNotPaidException => "OrderNotPaidException"
  | MultipleObjectsReturned => "MultipleObjectsReturned"
  | ObjectDoesNotExist => "ObjectDoesNotExist"
  | RequestException _ => "RequestException"
  | DatabaseError _ => "DatabaseError"
  | DecimalException _ => "DecimalException"
  | OtherError d => d
  end.

(** An identifier that Python code may also hold as [None]
    ([query_params.get('qpay_payment_id', None)]). *)
Definition pyid : Type := option string.

(** [str(x)] on such an identifier. *)
Definition py_str (x : pyid) : string :=
  match x with
  | Some s => s
  | None => "None"
  end.

Fixpoint assoc {A : Type} (k : string) (kvs : list (string * A)) : option A :=
  match kvs with
  | [] => None
  | (k', v) :: rest => if String.eqb k k' then Some v else assoc k rest
  end.

(** [d.get(k)]: only a dict has the method; a missing key gives [None]. *)
Definition dict_get (d : json) (k : string) : exn + json :=
  match d with
  | JObj kvs => inr (match assoc k kvs with Some v => v | None => JNull end)
  | _ => inl AttributeError
  end.

(** [d[k]] with a string key. *)
Definition getitem (d : json) (k : string) : exn + json :=
  match d with
  | JObj kvs =>
      match assoc k kvs with
      | Some v => inr v
      | None => inl (KeyError k)
      end
  | _ => inl TypeError
  end.

Fixpoint chars (s : string) : list json :=
  match s with
  | EmptyString => []
  | String c rest => JStr (String c EmptyString) :: chars rest
  end.

(** [for i in v]: the elements of a list, the keys of a dict, the
    characters of a string; anything else is not iterable. *)
Definition iter (v : json) : exn + list json :=
  match v with
  | JArr xs => inr xs
  | JObj kvs => inr (map (fun kv => JStr (fst kv)) kvs)
  | JStr s => inr (chars s)
  | _ => inl TypeError
  end.

(** [v == s] for a string literal [s]. *)
Definition py_eq_str (v : json) (s : string) : bool :=
  match v with
  | JStr t => String.eqb t s
  | _ => false
  end.

(** ['literal' + v]: concatenation needs a [str] on the right. *)
Definition str_concat (prefix : string) (v : json) : exn + string :=
  match v with
  | JStr t => inr (prefix ++ t)
  | _ => inl TypeError
  end.

(* ================================================================== *)
(** ** decimal.Decimal, as far as [_get_basket_amount] uses it *)

Module PyDecimal.

(** A finite decimal: (-1)^sign * coefficient * 10^exponent. *)
Record t : Type := mk {
  sign : bool;
  coeff : N;
  exponent : Z
}.

(** The default context: 28 significant digits, ROUND_HALF_EVEN. *)
Definition prec : N := 28.

Definition digit_char (d : N) : ascii :=
  ascii_of_N (48 + d).

Fixpoint digits_aux (fuel : nat) (n : N) (acc : string) : string :=
  match fuel with
  | O => acc
  | S f =>
      let acc' := String (digit_char (n mod 10)) acc in
      if (n <? 10)%N then acc' else digits_aux f (n / 10)%N acc'
  end.

(** The coefficient as Python stores it: a digit string without leading
    zeros, ["0"] for zero. *)
Definition digits (n : N) : string :=
  digits_aux (S (N.to_nat (N.size n))) n EmptyString.

Definition ndigits (n : N) : Z := Z.of_nat (String.length (digits n)).

(** Drop the last [k] decimal digits of [c], rounding half to even. *)
Definition round_half_even (c : N) (k : N) : N :=
  let p := (10 ^ k)%N in
  let q := (c / p)%N in
  let r := (c mod p)%N in
  if (p <? 2 * r)%N then (q + 1)%N
  else if (2 * r =? p)%N then (if N.odd q then q + 1 else q)%N
  else q.

(** [Decimal._fix] in the default context, within the exponent range
    (Emin = -999999, Emax = 999999 are never approached by prices):
    a coefficient longer than [prec] digits is rounded to [prec] digits. *)
Definition fix_ (d : t) : t :=
  if (coeff d <? 10 ^ prec)%N then d
  else
    let k := Z.to_N (ndigits (coeff d) - Z.of_N prec) in
    let c := round_half_even (coeff d) k in
    if (c <? 10 ^ prec)%N then mk (sign d) c (exponent d + Z.of_N k)
    else mk (sign d) (c / 10)%N (exponent d + Z.of_N k + 1).

(** [d * n] for a Python int [n >= 0]: the int is converted to
    [Decimal(n)], signs are xor-ed, coefficients multiplied, exponents
    added, and the result goes through [_fix]. *)
Definition mul_int (d : t) (n : N) : t :=
  fix_ (mk (xorb (sign d) false) (coeff d * n)%N (exponent d + 0)).

(** [d.to_integral_value()] with the context's rounding: unchanged when
    the exponent is not negative, otherwise rescaled to exponent 0. *)
Definition to_integral_value (d : t) : t :=
  if 0 <=? exponent d then d
  else mk (sign d) (round_half_even (coeff d) (Z.to_N (- exponent d))) 0.

Fixpoint zeros (n : nat) : string :=
  match n with
  | O => EmptyString
  | S m => String "0"%char (zeros m)
  end.

(** ["%+d" % n] *)
Definition signed_int (n : Z) : string :=
  if n <? 0 then "-" ++ digits (Z.to_N (- n)) else "+" ++ digits (Z.to_N n).

(** [str(d)]: plain notation when the exponent is at most 0 and the
    number is not too small, scientific notation otherwise. *)
Definition to_str (d : t) : string :=
  let sgn := if sign d then "-" else EmptyString in
  let ds := digits (coeff d) in
  let len := Z.of_nat (String.length ds) in
  let leftdigits := exponent d + len in
  let dotplace :=
    if (exponent d <=? 0) && (-6 <? leftdigits) then leftdigits else 1 in
  let intpart :=
    if dotplace <=? 0 then "0"
    else if len <=? dotplace then ds ++ zeros (Z.to_nat (dotplace - len))
    else substring 0 (Z.to_nat dotplace) ds in
  let fracpart :=
    if dotplace <=? 0 then "." ++ zeros (Z.to_nat (- dotplace)) ++ ds
    else if len <=? dotplace then EmptyString
    else "." ++ substring (Z.to_nat dotplace) (Z.to_nat (len - dotplace)) ds in
  let exp :=
    if leftdigits =? dotplace then EmptyString
    else "E" ++ signed_int (leftdigits - dotplace) in
  sgn ++ intpart ++ fracpart ++ exp.

End PyDecimal.

(* ================================================================== *)
(** ** Domain records *)

Record Basket : Type := {
  basket_id : Z;
  order_number : string;
  lines : list Z;                    (* ids of the basket's lines *)
  total_incl_tax : PyDecimal.t;
  currency : string
}.

(** A row of [BasketAttribute]: the correlation attribute that links a
    basket to a gateway invoice. *)
Record BasketAttribute : Type := {
  attribute_type : string;
  value_text : string;
  attr_basket : Basket
}.

(** A row of [PaymentProcessorResponse], the audit table. *)
Record PaymentProcessorResponse : Type := {
  processor_name : string;
  ppr_transaction_id : pyid;
  response : json;
  ppr_basket : option Basket
}.

(** [HandledProcessorResponse(transaction_id, total, currency,
    card_number, card_type)] *)
Record HandledProcessorResponse : Type := {
  transaction_id : pyid;
  total : PyDecimal.t;
  hpr_currency : string;
  card_number : string;
  card_type : pyid
}.

(** What [requests.request] is given. [FDumps j] and [DataJson j] stand
    for the text [json.dumps(j)]. *)
Inductive formval : Type :=
| FVal (v : pyid)
| FDumps (j : json).

Inductive body : Type :=
| NoData
| DataText (s : string)
| DataJson (j : json)
| DataForm (fields : list (string * formval)).

Record Request : Type := {
  method : string;
  url : string;
  headers : list (string * string);
  auth : option (string * string);
  data : body
}.

(** The properties sent with the analytics event of [handle_payment]. *)
Record SegmentProperties : Type := {
  sp_basket_id : Z;
  sp_processor_name : string;
  sp_stripe_enabled : bool;
  sp_success : option bool;
  sp_payment_error : option string;
  sp_total : option PyDecimal.t
}.

Inductive level : Type := INFO | WARNING | EXCEPTION.

(** Everything the code does to the outside, in the order it does it. *)
Inductive Event : Type :=
| Http (r : Request)
| AuditWrite (row : PaymentProcessorResponse)
| Log (lvl : level) (template : string)
| AddPaymentIntentAttribute (b : Basket) (value : json)
| AddOrganizationAttribute (b : Basket)
| ApplyOffers (b : Basket)
| RecordPayment (b : Basket) (h : HandledProcessorResponse)
| TrackSegmentEvent (name : string) (props : SegmentProperties)
| CreateOrder (b : Basket)
| HandlePostOrder (order : string).

(** The state a request runs against: the trace of what has been done and
    the two database tables this code reads or writes. *)
Record World : Type := {
  trace : list Event;
  audit_log : list PaymentProcessorResponse;
  basket_attributes : list BasketAttribute
}.

(** How the collaborators outside this code answer. Each call within one
    operation carries a different request, so a function of the request
    describes any gateway for the length of one operation. *)
Record Env : Type := {
  http : Request -> exn + json;                 (* requests.request(...).json() *)
  audit_write : PaymentProcessorResponse -> option exn;
  get_ecommerce_url : string -> string;
  get_basket : exn + Basket;                    (* Basket.get_basket(user, site) *)
  add_payment_intent_attribute : Basket -> json -> option exn;
  add_organization_attribute : Basket -> option exn;
  apply_offers : Basket -> option exn;
  record_payment : Basket -> HandledProcessorResponse -> option exn;
  track_segment_event : SegmentProperties -> option exn;
  create_order : Basket -> exn + string;        (* the order's number *)
  handle_post_order : string -> option exn;
  get_receipt_page_url : string -> exn + string
}.

(* ================================================================== *)
(** ** The state-and-exception monad *)

Definition M (A : Type) : Type := World -> (exn + A) * World.

Definition ret {A : Type} (a : A) : M A := fun w => (inr a, w).

Definition raise {A : Type} (e : exn) : M A := fun w => (inl e, w).

Definition bind {A B : Type} (m : M A) (f : A -> M B) : M B :=
  fun w =>
    match m w with
    | (inr a, w') => f a w'
    | (inl e, w') => (inl e, w')
    end.

Declare Scope py_scope.
Delimit Scope py_scope with py.
Notation "x <- m ;; k" := (bind m (fun x => k))
  (at level 100, m at next level, right associativity) : py_scope.
Notation "m ;; k" := (bind m (fun _ => k))
  (at level 100, right associativity) : py_scope.
Local Open Scope py_scope.

(** A pure Python expression that may raise. *)
Definition lift {A : Type} (r : exn + A) : M A :=
  match r with
  | inr a => ret a
  | inl e => raise e
  end.

(** [try: m  except: h] — a bare or broad [except] clause. *)
Definition try_except {A : Type} (m : M A) (h : exn -> M A) : M A :=
  fun w =>
    match m w with
    | (inr a, w') => (inr a, w')
    | (inl e, w') => h e w'
    end.

(** [try: m  finally: f] — [f] runs on both ways out, and an exception of
    [f] replaces the outcome of [m]. *)
Definition try_finally {A : Type} (m : M A) (f : M unit) : M A :=
  fun w =>
    match m w with
    | (r, w') =>
        match f w' with
        | (inr _, w'') => (r, w'')
        | (inl e, w'') => (inl e, w'')
        end
    end.

(** The world after some more events. *)
Definition add_events (w : World) (evs : list Event) : World :=
  {| trace := trace w ++ evs;
     audit_log := audit_log w;
     basket_attributes := basket_attributes w |}.

(** The world after one more row in the audit table. *)
Definition add_audit_row (w : World) (row : PaymentProcessorResponse) : World :=
  {| trace := trace w;
     audit_log := audit_log w ++ [row];
     basket_attributes := basket_attributes w |}.

Definition emit (ev : Event) : M unit :=
  fun w => (inr tt, add_events w [ev]).

(** A call into a collaborator: it is recorded, then it returns or raises.
    What the collaborator writes to the database on its own (the basket
    attribute rows of the basket utilities, orders, payment sources) is
    not part of the world: the trace says that the call was made, and
    the tables of the world change only through the audit write of
    [record_processor_response] and the roll-back of [atomic]. *)
Definition external (ev : Event) (outcome : option exn) : M unit :=
  emit ev ;;
  match outcome with
  | None => ret tt
  | Some e => raise e
  end.

Definition logger (lvl : level) (template : string) : M unit :=
  emit (Log lvl template).

(** [with transaction.atomic(): m] — an exception leaving the block rolls
    the tables back; what was sent or logged stays. Django also rolls
    back on a normal exit when a database error inside the block has
    marked the transaction; that mark is not modelled, so the tables
    after a block in which an error was swallowed are left unstated by
    the theorems below. *)
Definition atomic {A : Type} (m : M A) : M A :=
  fun w =>
    match m w with
    | (inr a, w') => (inr a, w')
    | (inl e, w') => (inl e, {| trace := trace w';
                                audit_log := audit_log w;
                                basket_attributes := basket_attributes w |})
    end.

(* ================================================================== *)
(** ** processors/qpay.py *)

(** An instance of [class Qpay]. [base_url] is what [__init__] stores;
    [configuration] is the processor's entry in the site settings. *)
Record Qpay : Type := {
  base_url : string;
  configuration : list (string * string)
}.

Definition NAME : string := "qpay".
Definition invoice_code : string := EmptyString.
Definition client_id : string := EmptyString.
Definition client_secret : string := EmptyString.

(** The value [check] returns when no paid row was seen. *)
Definition NOT_PAID : json := JObj [("payment_status", JStr "NOT-PAID")].

Section Processor.

Variable env : Env.
Variable self : Qpay.

(** [Qpay.__init__]: [self.base_url = get_ecommerce_url('')] *)
Definition Qpay_init (config : list (string * string)) : Qpay :=
  {| base_url := get_ecommerce_url env EmptyString; configuration := config |}.

(** [response = requests.request(...); response.json()] *)
Definition request (r : Request) : M json :=
  emit (Http r) ;; lift (http env r).

(** Modelled from the spec: [BasePaymentProcessor.record_processor_response],
    the Audit Recorder, is defined outside the files at hand. It is the
    "durable log of every gateway interaction ... keyed by transaction
    reference": one row per call, holding the processor name, the
    transaction id, the response handed over and the basket. A failing
    write raises and leaves no row. *)
Definition record_processor_response
    (resp : json) (txn : pyid) (basket : option Basket) : M unit :=
  let row := {| processor_name := NAME; ppr_transaction_id := txn;
                response := resp; ppr_basket := basket |} in
  emit (AuditWrite row) ;;
  match audit_write env row with
  | Some e => raise e
  | None => fun w => (inr tt, add_audit_row w row)
  end.

Definition token_request : Request :=
  {| method := "POST";
     url := base_url self ++ "auth/token";
     headers := [];
     auth := Some (client_id, client_secret);
     data := DataText EmptyString |}.

Definition token : M json :=
  res <- request token_request ;;
  lift (getitem res "access_token").

Definition _get_order_number (basket : Basket) : string :=
  order_number basket.

(** Convert to qpay amount, which is in cents. *)
Definition _get_basket_amount (basket : Basket) : string :=
  PyDecimal.to_str
    (PyDecimal.to_integral_value (PyDecimal.mul_int (total_incl_tax basket) 100)).

Definition create_request (bearer : string) (basket : Basket) : Request :=
  let order_id := _get_order_number basket in
  {| method := "POST";
     url := base_url self ++ "invoice";
     headers := [("Content-Type", "application/json");
                 ("Authorization", bearer)];
     auth := None;
     data := DataJson (JObj [
       ("invoice_code", JStr invoice_code);
       ("sender_invoice_no", JStr order_id);
       ("invoice_receiver_code", JStr "terminal");
       ("invoice_description", JStr "Course");
       ("amount", JStr (_get_basket_amount basket));
       ("callback_url",
          JStr (base_url self ++ "payment/qpay/check/" ++ order_id ++ "/"))]) |}.

Definition create (basket : Basket) : M json :=
  tok <- token ;;
  bearer <- lift (str_concat "Bearer " tok) ;;
  request (create_request bearer basket).

Definition refund_request (bearer : string) (order_id : pyid) : Request :=
  {| method := "DELETE";
     url := base_url self ++ "payment/refund/" ++ py_str order_id;
     headers := [("Authorization", bearer)];
     auth := None;
     data := NoData |}.

Definition refund (order_id : pyid) : M json :=
  tok <- token ;;
  bearer <- lift (str_concat "Bearer " tok) ;;
  request (refund_request bearer order_id).

Definition check_request (bearer : string) (order_id : pyid) : Request :=
  {| method := "POST";
     url := base_url self ++ "payment/check";
     headers := [("Authorization", bearer)];
     auth := None;
     data := DataForm [
       ("object_type", FVal (Some "INVOICE"));
       ("object_id", FVal order_id);
       ("offset", FDumps (JObj [("page_number", JNum 1);
                                ("page_limit", JNum 100)]))] |}.

(** [for i in rows: if i['payment_status'] == "PAID": return i] *)
Fixpoint scan_rows (rows : list json) : exn + option json :=
  match rows with
  | [] => inr None
  | i :: rest =>
      match getitem i "payment_status" with
      | inl e => inl e
      | inr st => if py_eq_str st "PAID" then inr (Some i) else scan_rows rest
      end
  end.

Definition check (order_id : pyid) : M json :=
  tok <- token ;;
  bearer <- lift (str_concat "Bearer " tok) ;;
  res <- request (check_request bearer order_id) ;;
  err <- lift (dict_get res "error") ;;
  if negb (py_eq_str err "PAYMENT_NOTFOUND") then
    rows <- lift (getitem res "rows") ;;
    xs <- lift (iter rows) ;;
    found <- lift (scan_rows xs) ;;
    match found with
    | Some i => ret i
    | None => ret NOT_PAID
    end
  else ret NOT_PAID.

(** [self.configuration[key]] *)
Definition config_item (key : string) : exn + string :=
  match assoc key (configuration self) with
  | Some v => inr v
  | None => inl (KeyError key)
  end.

Definition cancel_url : M string :=
  p <- lift (config_item "cancel_checkout_path") ;;
  ret (get_ecommerce_url env p).

Definition error_url : M string :=
  p <- lift (config_item "error_path") ;;
  ret (get_ecommerce_url env p).

(** [basket.<attribute>] on an argument that defaults to [None]. *)
Definition attr_of {A : Type} (basket : option Basket) (f : Basket -> A) : exn + A :=
  match basket with
  | Some b => inr (f b)
  | None => inl AttributeError
  end.

Definition get_capture_context : M json :=
  basket <- lift (get_basket env) ;;
  qpay_response <-
    (if negb (match lines basket with [] => false | _ => true end) then
       logger INFO "QPay capture-context called with empty basket [%d] and order number [%s]." ;;
       ret (JObj [("invoice_id", JStr EmptyString);
                  ("qr_code", JStr EmptyString);
                  ("qr_link", JStr EmptyString)])
     else
       logger INFO "*** GETTING QPAY RESPONSE ***" ;;
       qpay_response <- create basket ;;
       logger INFO "*** QPAY RESPONSE %s ***" ;;
       transaction_id <- lift (getitem qpay_response "invoice_id") ;;
       external (AddPaymentIntentAttribute basket transaction_id)
                (add_payment_intent_attribute env basket transaction_id) ;;
       ret qpay_response) ;;
  invoice_id <- lift (getitem qpay_response "invoice_id") ;;
  qpay_link <- lift (getitem qpay_response "qPay_shortUrl") ;;
  qpay_qr <- lift (getitem qpay_response "qr_image") ;;
  ret (JObj [("invoice_id", invoice_id);
             ("qpay_link", qpay_link);
             ("qpay_qr", qpay_qr);
             ("order_id", JStr (order_number basket))]).

Definition handle_processor_response
    (payment_intent_id : pyid) (basket : option Basket)
    : M HandledProcessorResponse :=
  confirm_api_response <- check payment_intent_id ;;
  payment_status <- lift (getitem confirm_api_response "payment_status") ;;
  if py_eq_str payment_status "NOT-PAID" then
    record_processor_response confirm_api_response payment_intent_id basket ;;
    _ <- lift (attr_of basket basket_id) ;;
    logger EXCEPTION "QPAY NOT PAID for basket [%d]: %s}" ;;
    raise OrderNotPaidException
  else
    (* proceed only if payment went through *)
    status <- lift (getitem confirm_api_response "status") ;;
    if negb (py_eq_str status "succeeded") then raise AssertionError
    else
      record_processor_response confirm_api_response payment_intent_id basket ;;
      _ <- lift (attr_of basket basket_id) ;;
      _ <- lift (attr_of basket order_number) ;;
      logger INFO "Successfully confirmed QPay payment intent [%s] for basket [%d] and order number [%s]." ;;
      total <- lift (attr_of basket total_incl_tax) ;;
      currency <- lift (attr_of basket currency) ;;
      ret {| transaction_id := payment_intent_id;
             total := total;
             hpr_currency := currency;
             card_number := "Qpay";
             card_type := payment_intent_id |}.

Definition issue_credit
    (order_no : string) (basket : option Basket) (reference_number : pyid)
    (amount : PyDecimal.t) (currency : string) : M pyid :=
  refund <-
    try_except (refund reference_number)
      (fun e =>
         record_processor_response (JObj []) reference_number basket ;;
         logger EXCEPTION "An error occurred while attempting to Refund (via QPAY) for order [{}]." ;;
         raise e) ;;
  let transaction_id := reference_number in
  record_processor_response refund transaction_id basket ;;
  ret transaction_id.

End Processor.

(* ================================================================== *)
(** ** views/qpay.py *)

Inductive Response : Type :=
| JsonResponse (content : json) (status : Z)
| HttpResponseRedirect (location : string).


(** [django.shortcuts.redirect(url)] *)
Definition redirect (to : string) : Response := HttpResponseRedirect to.

(** What a view class holds under the name [payment_processor]:
    [QpayCheckView] sets the class attribute to the string "qpay",
    the API views define a property that builds [Qpay(self.request.site)]. *)
Inductive processor_attr : Type :=
| ProcessorName (s : string)
| ProcessorInstance (p : Qpay).

(** Reaching [.NAME] or a method through the attribute: a [str] has
    neither. *)
Definition processor_of (p : processor_attr) : exn + Qpay :=
  match p with
  | ProcessorInstance q => inr q
  | ProcessorName _ => inl AttributeError
  end.

Definition NOT_PAID_MESSAGE : string := "Төлбөр төлөгдөөгүй байна".

Section Views.

Variable env : Env.

(** [ecommerce.extensions.basket.constants.PAYMENT_INTENT_ID_ATTRIBUTE] *)
Variable PAYMENT_INTENT_ID_ATTRIBUTE : string.

Definition do_track_segment_event (properties : SegmentProperties) : M unit :=
  external (TrackSegmentEvent "Payment Processor Response" properties)
           (track_segment_event env properties).

(** [QpayCheckView.handle_payment]: handle any payment processing and
    record payment sources and events. It reaches the processor through
    the view's [payment_processor] attribute. *)
Definition handle_payment
    (payment_processor : processor_attr) (payment_intent_id : pyid)
    (basket : Basket) : M unit :=
  proc <- lift (processor_of payment_processor) ;;
  let properties :=
    {| sp_basket_id := basket_id basket;
       sp_processor_name := NAME;
       sp_stripe_enabled := false;
       sp_success := None;
       sp_payment_error := None;
       sp_total := None |} in
  fun w =>
    match handle_processor_response env proc payment_intent_id (Some basket) w with
    | (inl ex, w1) =>
        (* except Exception as ex: properties.update(...); raise *)
        try_finally (raise ex)
          (do_track_segment_event
             {| sp_basket_id := sp_basket_id properties;
                sp_processor_name := sp_processor_name properties;
                sp_stripe_enabled := sp_stripe_enabled properties;
                sp_success := Some false;
                sp_payment_error := Some (exn_name ex);
                sp_total := None |}) w1
    | (inr handled_processor_response, w1) =>
        (* else: we only record successful payments in the database *)
        match external (RecordPayment basket handled_processor_response)
                       (record_payment env basket handled_processor_response) w1 with
        | (inl ex, w2) =>
            try_finally (raise ex) (do_track_segment_event properties) w2
        | (inr _, w2) =>
            try_finally (ret tt)
              (do_track_segment_event
                 {| sp_basket_id := sp_basket_id properties;
                    sp_processor_name := sp_processor_name properties;
                    sp_stripe_enabled := sp_stripe_enabled properties;
                    sp_success := Some true;
                    sp_payment_error := None;
                    sp_total := Some (total handled_processor_response) |}) w2
        end
    end.

Definition do_create_order (basket : Basket) : M string :=
  emit (CreateOrder basket) ;; lift (create_order env basket).

(** *** QpayCheckView *)

Record QpaySubmitForm : Type := {
  cleaned_basket : Basket;
  cleaned_payment_intent_id : string
}.

Definition QpayCheckView_payment_processor : processor_attr :=
  ProcessorName "qpay".

Definition form_valid (form : QpaySubmitForm) (POST : json) : M Response :=
  let basket := cleaned_basket form in
  let payment_intent_id := Some (cleaned_payment_intent_id form) in
  let order_no := order_number basket in
  external (AddOrganizationAttribute basket) (add_organization_attribute env basket) ;;
  external (AddPaymentIntentAttribute basket POST)
           (add_payment_intent_attribute env basket POST) ;;
  failed <-
    try_except
      (handle_payment QpayCheckView_payment_processor payment_intent_id basket ;;
       ret None)
      (fun _ =>
         logger EXCEPTION "An error occurred while processing the QPay payment for basket [%d]." ;;
         ret (Some (JsonResponse (JObj [("error", JStr NOT_PAID_MESSAGE)]) 400))) ;;
  match failed with
  | Some resp => ret resp
  | None =>
      failed <-
        try_except
          (do_create_order basket ;; ret None)
          (fun _ =>
             logger EXCEPTION "An error occurred while processing the QPay payment for basket [%d]." ;;
             ret (Some (JsonResponse (JObj []) 400))) ;;
      match failed with
      | Some resp => ret resp
      | None =>
          receipt_url <- lift (get_receipt_page_url env order_no) ;;
          ret (JsonResponse (JObj [("url", JStr receipt_url)]) 201)
      end
  end.

(** *** QpayAPICreateView *)

Definition checkout_page_response (qpay_response : json) : Response :=
  JsonResponse qpay_response 201.

Definition post (processor : Qpay) : M Response :=
  qpay_response <- get_capture_context env processor ;;
  ret (checkout_page_response qpay_response).

(** *** QpayAPICheckView *)

(** [self.handle_payment] as [QpayAPICheckView] has it. The view defines no
    such method: it runs the one it inherits from [EdxOrderPlacementMixin],
    which is defined outside these files. It is left open here: any
    computation on a payment intent id and a basket, which returns or
    raises and does to the world whatever it does. *)
Variable inherited_handle_payment : pyid -> Basket -> M unit.

(** The filter of [BasketAttribute.objects.get(attribute_type=t,
    value_text=v)]. A [None] value matches no row of the non-null text
    column. *)
Definition attribute_matches (t : string) (v : pyid) (a : BasketAttribute)
    : bool :=
  String.eqb (attribute_type a) t &&
  match v with
  | Some s => String.eqb (value_text a) s
  | None => false
  end.

(** [BasketAttribute.objects.get(...)]: the one matching row, or one of
    the two lookup exceptions. The attribute type that [get_or_create]
    hands back is identified by its name, and reading the table does not
    fail by itself. *)
Definition objects_get
    (table : list BasketAttribute) (t : string) (v : pyid)
    : exn + BasketAttribute :=
  match filter (attribute_matches t v) table with
  | [] => inl ObjectDoesNotExist
  | [a] => inr a
  | _ :: _ :: _ => inl MultipleObjectsReturned
  end.

Definition _get_basket (payment_intent_id : pyid) : M (option Basket) :=
  try_except
    (basket_attribute <-
       (fun w => lift (objects_get (basket_attributes w)
                                   PAYMENT_INTENT_ID_ATTRIBUTE payment_intent_id) w) ;;
     let basket := attr_basket basket_attribute in
     external (ApplyOffers basket) (apply_offers env basket) ;;
     logger INFO "Applicator applied, basket id: [%s]. Processed by [%s]." ;;
     external (AddOrganizationAttribute basket) (add_organization_attribute env basket) ;;
     ret (Some basket))
    (fun e =>
       match e with
       | MultipleObjectsReturned =>
           logger WARNING "Duplicate payment_intent_id [%s] received from QPAY." ;;
           ret None
       | ObjectDoesNotExist =>
           logger WARNING "Could not find payment_intent_id [%s] among baskets." ;;
           ret None
       | _ =>
           logger EXCEPTION "Unexpected error during basket retrieval while executing QPAY payment." ;;
           ret None
       end).

(** Tell the frontend to redirect to a generic error page. *)
Definition error_page_response : Response :=
  JsonResponse (JObj []) 400.

(** Tell the frontend the SKU in the request does not match the basket. *)
Definition sku_mismatch_error_response : Response :=
  JsonResponse (JObj [("sku_error", JBool true)]) 400.

(** Tell the frontend to redirect to the SDN error page. *)
Definition sdn_error_page_response (hit_count : Z) : Response :=
  JsonResponse (JObj [("sdn_check_failure", JObj [("hit_count", JNum hit_count)])]) 400.

(** Tell the frontend that a QPAY error has occurred. *)
Definition qpay_error_response : Response :=
  JsonResponse (JObj [("error_code", JNum 400);
                      ("user_message", JStr NOT_PAID_MESSAGE)]) 400.

(** Tell the frontend to redirect to the receipt page. *)
Definition receipt_page_response (basket : Basket) : M Response :=
  receipt_page_url <- lift (get_receipt_page_url env (order_number basket)) ;;
  ret (JsonResponse (JObj [("receipt_page_url", JStr receipt_page_url)]) 201).

(** Handle the callback after capture-context. [processor] is the
    [Qpay(self.request.site)] the view's property builds. *)
Definition get (processor : Qpay) (query_params : list (string * string))
    : M Response :=
  let payment_intent_id := assoc "qpay_payment_id" query_params in
  basket <- _get_basket payment_intent_id ;;
  match basket with
  | None =>
      logger INFO "Received QPAY payment notification for non-existent basket with payment intent id [%s]." ;;
      location <- error_url env processor ;;
      ret (redirect location)
  | Some basket =>
      logger INFO "%s called for QPAY payment intent id [%s], basket [%d] with status [%s], and order number [%s]." ;;
      failed <-
        try_except
          (atomic
             (try_except
                (inherited_handle_payment payment_intent_id basket ;;
                 ret None)
                (fun _ => ret (Some qpay_error_response))))
          (fun _ =>
             logger EXCEPTION "Attempts to handle payment for basket [%d] failed." ;;
             ret (Some error_page_response)) ;;
      match failed with
      | Some resp => ret resp
      | None =>
          failed <-
            try_except
              (order <- do_create_order basket ;;
               external (HandlePostOrder order) (handle_post_order env order) ;;
               ret None)
              (fun _ =>
                 logger EXCEPTION "Error processing order for transaction [%s], with order [%s] and basket [%d]. Processed by [%s]." ;;
                 ret (Some error_page_response)) ;;
          match failed with
          | Some resp => ret resp
          | None => receipt_page_response basket
          end
      end
  end.

End Views.

(* ================================================================== *)
(** ** Observations on a world, and sample data *)

Definition is_audit_write (ev : Event) : bool :=
  match ev with
  | AuditWrite _ => true
  | _ => false
  end.

Definition is_http (ev : Event) : bool :=
  match ev with
  | Http _ => true
  | _ => false
  end.

(** How many times the Audit Recorder has been invoked. *)
Definition audit_writes (w : World) : nat :=
  List.length (filter is_audit_write (trace w)).

(** The audit row a call with these arguments asks for. *)
Definition audit_row (resp : json) (txn : pyid) (basket : option Basket)
    : PaymentProcessorResponse :=
  {| processor_name := NAME; ppr_transaction_id := txn;
     response := resp; ppr_basket := basket |}.

(** [i['payment_status'] == "PAID"], for a row that has the field. *)
Definition is_paid (row : json) : bool :=
  match getitem row "payment_status" with
  | inr st => py_eq_str st "PAID"
  | inl _ => false
  end.

(** The row carries a payment-status field, as the wire contract says. *)
Definition has_payment_status (row : json) : Prop :=
  exists st, getitem row "payment_status" = inr st.

Definition empty_world : World :=
  {| trace := []; audit_log := []; basket_attributes := [] |}.

Definition sample_basket : Basket :=
  {| basket_id := 7;
     order_number := "EDX-100007";
     lines := [1];
     total_incl_tax := PyDecimal.mk false 19995 (-3);
     currency := "MNT" |}.

Definition sample_qpay : Qpay :=
  {| base_url := "https://merchant.qpay.mn/v2/";
     configuration := [("cancel_checkout_path", "/checkout/cancel-checkout/");
                       ("error_path", "/checkout/error/")] |}.

(** A gateway that hands out the token "t0k", answers [payment/check]
    with [check_reply] and [payment/refund/...] with [refund_reply]. *)
Definition sample_gateway (check_reply refund_reply : exn + json)
    (r : Request) : exn + json :=
  if String.eqb (url r) (base_url sample_qpay ++ "auth/token")
  then inr (JObj [("access_token", JStr "t0k")])
  else if String.eqb (url r) (base_url sample_qpay ++ "payment/check")
  then check_reply
  else if String.eqb (method r) "DELETE" then refund_reply
  else inl (RequestException "unexpected request").

Definition sample_env (check_reply refund_reply : exn + json)
    (audit_outcome : option exn) (basket : Basket) : Env :=
  {| http := sample_gateway check_reply refund_reply;
     audit_write := fun _ => audit_outcome;
     get_ecommerce_url := fun path => "https://ecommerce.example" ++ path;
     get_basket := inr basket;
     add_payment_intent_attribute := fun _ _ => None;
     add_organization_attribute := fun _ => None;
     apply_offers := fun _ => None;
     record_payment := fun _ _ => None;
     track_segment_event := fun _ => None;
     create_order := fun b => inr (order_number b);
     handle_post_order := fun _ => None;
     get_receipt_page_url := fun n => inr ("https://ecommerce.example/receipt/" ++ n) |}.

Definition payment_notfound_body : json :=
  JObj [("error", JStr "PAYMENT_NOTFOUND")].

(** A paid row as the gateway lists it: no field named "status". *)
Definition paid_row : json :=
  JObj [("payment_id", JStr "593744473409193");
        ("payment_status", JStr "PAID");
        ("payment_amount", JStr "100.00")].

(** A paid row that also carries the "status" field the confirmation
    step insists on. *)
Definition paid_row_succeeded : json :=
  JObj [("payment_id", JStr "593744473409193");
        ("payment_status", JStr "PAID");
        ("status", JStr "succeeded")].

Definition new_row : json :=
  JObj [("payment_id", JStr "593744473409100");
        ("payment_status", JStr "NEW")].

Definition rows_body (rows : list json) : json :=
  JObj [("count", JNum (Z.of_nat (List.length rows))); ("rows", JArr rows)].

(** Sample environments: which answer the gateway gives on
    [payment/check], and whether the audit table accepts writes. *)
Definition env_notfound : Env :=
  sample_env (inr payment_notfound_body) (inl (RequestException "refund"))
             None sample_basket.

Definition env_paid_no_status : Env :=
  sample_env (inr (rows_body [new_row; paid_row])) (inl (RequestException "refund"))
             None sample_basket.

Definition env_paid_succeeded : Env :=
  sample_env (inr (rows_body [new_row; paid_row_succeeded]))
             (inl (RequestException "refund")) None sample_basket.

Definition env_audit_down : Env :=
  sample_env (inr payment_notfound_body) (inl (RequestException "refund"))
             (Some (DatabaseError "audit table unavailable")) sample_basket.

Definition INV_1 : pyid := Some "INV-1".

(** The refund endpoint is unreachable; the audit table works. *)
Definition env_refund_down : Env :=
  sample_env (inr payment_notfound_body)
             (inl (RequestException "connection refused")) None sample_basket.

(** The refund endpoint is unreachable and so is the audit table. *)
Definition env_refund_and_audit_down : Env :=
  sample_env (inr payment_notfound_body)
             (inl (RequestException "connection refused"))
             (Some (DatabaseError "audit table unavailable")) sample_basket.

Definition empty_basket : Basket :=
  {| basket_id := 9;
     order_number := "EDX-100009";
     lines := [];
     total_incl_tax := PyDecimal.mk false 0 (-2);
     currency := "MNT" |}.

Definition env_empty_basket : Env :=
  sample_env (inr payment_notfound_body) (inl (RequestException "refund"))
             None empty_basket.

Definition other_basket : Basket :=
  {| basket_id := 11;
     order_number := "EDX-100011";
     lines := [2];
     total_incl_tax := PyDecimal.mk false 4999 (-2);
     currency := "MNT" |}.

(** Two baskets carry the same invoice id as their correlation attribute. *)
Definition world_duplicate : World :=
  {| trace := [];
     audit_log := [];
     basket_attributes :=
       [ {| attribute_type := "payment_intent_id"; value_text := "INV-1";
            attr_basket := sample_basket |};
         {| attribute_type := "payment_intent_id"; value_text := "INV-1";
            attr_basket := other_basket |} ] |}.

(** One basket carries the invoice id. *)
Definition world_one_basket : World :=
  {| trace := [];
     audit_log := [];
     basket_attributes :=
       [ {| attribute_type := "payment_intent_id"; value_text := "INV-1";
            attr_basket := sample_basket |} ] |}.

Definition callback_query : list (string * string) :=
  [("qpay_payment_id", "INV-1")].

(* ================================================================== *)
(** ** processors/qpay.py: the remaining pure methods *)

Definition _build_payment_intent_parameters (basket : Basket) : json :=
  let order_no := order_number basket in
  let amount := _get_basket_amount basket in
  let cur := currency basket in
  JObj [("amount", JStr amount);
        ("currency", JStr cur);
        ("description", JStr order_no);
        ("metadata", JObj [("order_number", JStr order_no)])].

(** Generate an idempotency key for creating a PaymentIntent for a Basket.
    Using a version number in the key to aid in future development. *)
Definition generate_basket_pi_idempotency_key (basket : Basket) : string :=
  "basket_pi_create_v1_" ++ order_number basket.

(* ================================================================== *)
(** ** More observations and sample data *)

(** The same collaborators with another gateway. *)
Definition with_http (e : Env) (h : Request -> exn + json) : Env :=
  {| http := h;
     audit_write := audit_write e;
     get_ecommerce_url := get_ecommerce_url e;
     get_basket := get_basket e;
     add_payment_intent_attribute := add_payment_intent_attribute e;
     add_organization_attribute := add_organization_attribute e;
     apply_offers := apply_offers e;
     record_payment := record_payment e;
     track_segment_event := track_segment_event e;
     create_order := create_order e;
     handle_post_order := handle_post_order e;
     get_receipt_page_url := get_receipt_page_url e |}.

(** The same collaborators with an order placement that raises. *)
Definition with_create_order_failure (e : Env) (x : exn) : Env :=
  {| http := http e;
     audit_write := audit_write e;
     get_ecommerce_url := get_ecommerce_url e;
     get_basket := get_basket e;
     add_payment_intent_attribute := add_payment_intent_attribute e;
     add_organization_attribute := add_organization_attribute e;
     apply_offers := apply_offers e;
     record_payment := record_payment e;
     track_segment_event := track_segment_event e;
     create_order := fun _ => inl x;
     handle_post_order := handle_post_order e;
     get_receipt_page_url := get_receipt_page_url e |}.

(** A gateway whose token endpoint answers [token_reply] and whose other
    endpoints answer [reply]. *)
Definition gateway_with_token (token_reply reply : exn + json) (r : Request)
    : exn + json :=
  if String.eqb (url r) (base_url sample_qpay ++ "auth/token")
  then token_reply else reply.

Definition invoice_body : json :=
  JObj [("invoice_id", JStr "INV-1");
        ("qr_text", JStr "0002010102121531");
        ("qr_image", JStr "iVBORw0KGgo");
        ("qPay_shortUrl", JStr "https://s.qpay.mn/abc")].

(** The answer to an invoice that lacks the short link. *)
Definition invoice_body_without_link : json :=
  JObj [("invoice_id", JStr "INV-1"); ("qr_image", JStr "iVBORw0KGgo")].

Definition env_invoice (reply : exn + json) : Env :=
  with_http env_notfound
    (gateway_with_token (inr (JObj [("access_token", JStr "t0k")])) reply).

(** The token endpoint answers without an access token. *)
Definition env_no_token : Env :=
  with_http env_notfound
    (gateway_with_token (inr (JObj [("error", JStr "NO_CREDENTIALS")]))
                        (inr payment_notfound_body)).

(** The token endpoint hands out a number where a string is expected. *)
Definition env_numeric_token : Env :=
  with_http env_notfound
    (gateway_with_token (inr (JObj [("access_token", JNum 42)]))
                        (inr payment_notfound_body)).

Definition env_refund_ok : Env :=
  sample_env (inr payment_notfound_body) (inr (JObj [])) None sample_basket.

Definition callback_query_without_id : list (string * string) :=
  [("utm_source", "qpay")].

Definition sample_qpay_unconfigured : Qpay :=
  {| base_url := "https://merchant.qpay.mn/v2/"; configuration := [] |}.

Definition sample_form : QpaySubmitForm :=
  {| cleaned_basket := sample_basket; cleaned_payment_intent_id := "INV-1" |}.

(** *** Shapes of computations *)

(** A computation that only sends requests: it extends the trace by
    [Http] events and changes neither table. *)
Definition only_http {A : Type} (m : M A) : Prop :=
  forall w, exists reqs, snd (m w) = add_events w (map Http reqs).

(** The computation only ever appends to the trace. *)
Definition grows {A : Type} (m : M A) : Prop :=
  forall w, exists evs, trace (snd (m w)) = (trace w ++ evs)%list.

(** The first thing the computation does is [ev]. *)
Definition starts_with {A : Type} (ev : Event) (m : M A) : Prop :=
  forall w, exists evs, trace (snd (m w)) = (trace w ++ ev :: evs)%list.

(** The payment settles; placing the order fails. *)
Definition env_paid_order_down : Env :=
  with_create_order_failure env_paid_succeeded (OtherError "UnableToPlaceOrder").

(** The payment step [QpayAPICheckView] inherits is defined outside these
    files. The instances below run the callback view on the one payment
    step these files contain, the text of [QpayCheckView.handle_payment],
    given a processor instance. *)
Definition sample_payment_step (env : Env) (processor : Qpay)
    : pyid -> Basket -> M unit :=
  handle_payment env (ProcessorInstance processor).


(** *** Reading a string of decimal digits

    Written independently of [PyDecimal.digits], to say what a rendered
    amount denotes. *)

Definition digit_value (c : ascii) : option N :=
  let n := N_of_ascii c in
  if ((48 <=? n) && (n <=? 57))%N then Some (n - 48)%N else None.

Fixpoint parse_digits (s : string) (acc : N) : option N :=
  match s with
  | EmptyString => Some acc
  | String c rest =>
      match digit_value c with
      | Some d => parse_digits rest (10 * acc + d)%N
      | None => None
      end
  end.

(** The number a non-empty string of ASCII digits denotes in base 10;
    [None] for any other string. *)
Definition decimal_value (s : string) : option N :=
  match s with
  | EmptyString => None
  | _ => parse_digits s 0
  end.

(** A zero in front of further characters. *)
Definition leading_zero (s : string) : bool :=
  match s with
  | String c (String _ _) => Ascii.eqb c "0"
  | _ => false
  end.



(* ================================================================== *)
(** ** Frame lemmas: what the gateway client leaves untouched *)

Lemma world_eta (w : World) : w = add_events w (map Http []).
Proof. destruct w; unfold add_events; simpl; now rewrite app_nil_r. Qed.

Lemma add_events_app (w : World) (evs evs' : list Event) :
  add_events (add_events w evs) evs' = add_events w (evs ++ evs').
Proof. unfold add_events; simpl. now rewrite app_assoc. Qed.

Lemma only_http_ret {A : Type} (a : A) : only_http (ret a).
Proof. intro w; exists []; apply world_eta. Qed.

Lemma only_http_raise {A : Type} (e : exn) : only_http (@raise A e).
Proof. intro w; exists []; apply world_eta. Qed.

Lemma only_http_lift {A : Type} (r : exn + A) : only_http (lift r).
Proof. destruct r; [apply only_http_raise | apply only_http_ret]. Qed.

Lemma only_http_bind {A B : Type} (m : M A) (f : A -> M B) :
  only_http m -> (forall a, only_http (f a)) -> only_http (bind m f).
Proof.
  intros Hm Hf w. unfold bind.
  destruct (Hm w) as [reqs Hw].
  destruct (m w) as [[e | a] w1]; simpl in *.
  - now exists reqs.
  - destruct (Hf a w1) as [reqs' Hw'].
    exists (reqs ++ reqs')%list. rewrite Hw'. subst w1.
    now rewrite add_events_app, map_app.
Qed.

Lemma only_http_request (env : Env) (r : Request) : only_http (request env r).
Proof.
  intro w. exists [r]. unfold request, bind, emit, lift; simpl.
  destruct (http env r); reflexivity.
Qed.

Create HintDb frame.

#[local] Hint Resolve only_http_ret only_http_raise only_http_lift
  only_http_request : frame.

Ltac frame :=
  repeat first
    [ solve [ auto with frame ]
    | apply only_http_bind; [ | intro ]
    | match goal with
      | |- only_http (if ?c then _ else _) => destruct c
      | |- only_http (match ?x with _ => _ end) => destruct x
      end ].

Lemma only_http_token (env : Env) (self : Qpay) : only_http (token env self).
Proof. unfold token. frame. Qed.

#[local] Hint Resolve only_http_token : frame.

Lemma only_http_check (env : Env) (self : Qpay) (order_id : pyid) :
  only_http (check env self order_id).
Proof. unfold check. frame. Qed.

Lemma only_http_refund (env : Env) (self : Qpay) (order_id : pyid) :
  only_http (refund env self order_id).
Proof. unfold refund. frame. Qed.

Lemma only_http_create (env : Env) (self : Qpay) (basket : Basket) :
  only_http (create env self basket).
Proof. unfold create. frame. Qed.

Lemma filter_audit_http (reqs : list Request) :
  filter is_audit_write (map Http reqs) = [].
Proof. induction reqs; simpl; auto. Qed.

(** Sending requests never touches the audit trail. *)
Lemma only_http_audit {A : Type} (m : M A) (w : World) :
  only_http m ->
  audit_writes (snd (m w)) = audit_writes w /\
  audit_log (snd (m w)) = audit_log w /\
  basket_attributes (snd (m w)) = basket_attributes w.
Proof.
  intro H. destruct (H w) as [reqs Hw]. rewrite Hw.
  unfold audit_writes; simpl.
  now rewrite filter_app, filter_audit_http, app_nil_r.
Qed.

(** ** What [check] can return *)

Lemma scan_rows_found (rows : list json) (i : json) :
  scan_rows rows = inr (Some i) -> In i rows /\ is_paid i = true.
Proof.
  induction rows as [| r rows IH]; simpl; [discriminate |].
  destruct (getitem r "payment_status") as [e | st] eqn:Hst; [discriminate |].
  destruct (py_eq_str st "PAID") eqn:Hp.
  - intro H; injection H as <-. split; [now left |].
    unfold is_paid. now rewrite Hst.
  - intro H. destruct (IH H). split; [now right | assumption].
Qed.

(** Either the canonical not-paid value or a row whose payment status
    reads "PAID". *)
Lemma check_returns (env : Env) (self : Qpay) (order_id : pyid)
    (w : World) (v : json) :
  fst (check env self order_id w) = inr v -> v = NOT_PAID \/ is_paid v = true.
Proof.
  unfold check, bind, lift, ret, raise.
  destruct (token env self w) as [[e | tok] w1]; simpl; [discriminate |].
  destruct (str_concat "Bearer " tok) as [e | bearer]; simpl; [discriminate |].
  destruct (request env _ w1) as [[e | res] w2]; simpl; [discriminate |].
  destruct (dict_get res "error") as [e | err]; simpl; [discriminate |].
  destruct (py_eq_str err "PAYMENT_NOTFOUND"); simpl.
  2: { destruct (getitem res "rows") as [e | rows]; simpl; [discriminate |].
       destruct (iter rows) as [e | xs]; simpl; [discriminate |].
       destruct (scan_rows xs) as [e | [i |]] eqn:Hs; simpl; try discriminate.
       - intro H; injection H as <-. right. now apply scan_rows_found in Hs.
       - intro H; injection H as <-. now left. }
  intro H; injection H as <-. now left.
Qed.

Lemma is_paid_status (row : json) :
  is_paid row = true -> getitem row "payment_status" = inr (JStr "PAID").
Proof.
  unfold is_paid. destruct (getitem row "payment_status") as [e | st]; [discriminate |].
  destruct st; simpl; try discriminate.
  intro H. apply String.eqb_eq in H. now subst.
Qed.

(** ** Counting audit writes *)

Lemma audit_writes_add_events (w : World) (evs : list Event) :
  audit_writes (add_events w evs) =
  (audit_writes w + List.length (filter is_audit_write evs))%nat.
Proof.
  unfold audit_writes, add_events; simpl.
  now rewrite filter_app, length_app.
Qed.

Lemma audit_writes_add_audit_row (w : World) (row : PaymentProcessorResponse) :
  audit_writes (add_audit_row w row) = audit_writes w.
Proof. reflexivity. Qed.

Ltac count_audit_writes :=
  repeat (rewrite audit_writes_add_events || rewrite audit_writes_add_audit_row).

(** ** One step of [check], given the gateway's answers *)

Lemma token_eval (env : Env) (self : Qpay) (w : World) (res : json) :
  http env (token_request self) = inr res ->
  token env self w =
  (getitem res "access_token", add_events w [Http (token_request self)]).
Proof.
  intro H. unfold token, request, bind, emit, lift. rewrite H. simpl.
  now destruct (getitem res "access_token").
Qed.

Section CheckEval.

Variables (env : Env) (self : Qpay) (order_id : pyid) (w : World).
Variables (tokres : json) (tok : string) (res : json).
Hypothesis Htoken : http env (token_request self) = inr tokres.
Hypothesis Haccess : getitem tokres "access_token" = inr (JStr tok).
Hypothesis Hcheck :
  http env (check_request self ("Bearer " ++ tok) order_id) = inr res.

Let sent : World :=
  add_events w [Http (token_request self);
                Http (check_request self ("Bearer " ++ tok) order_id)].

Lemma check_eval_world : snd (check env self order_id w) = sent.
Proof.
  unfold check, bind. rewrite (token_eval _ _ _ _ Htoken), Haccess. simpl.
  unfold request, bind, emit, lift. simpl. simpl in Hcheck. rewrite Hcheck. simpl.
  unfold sent. rewrite add_events_app. simpl.
  destruct (dict_get res "error") as [e | err]; simpl; [reflexivity |].
  destruct (py_eq_str err "PAYMENT_NOTFOUND"); simpl; [reflexivity |].
  destruct (getitem res "rows") as [e | rows]; simpl; [reflexivity |].
  destruct (iter rows) as [e | xs]; simpl; [reflexivity |].
  destruct (scan_rows xs) as [e | [i |]]; reflexivity.
Qed.

Lemma check_eval_notfound :
  dict_get res "error" = inr (JStr "PAYMENT_NOTFOUND") ->
  check env self order_id w = (inr NOT_PAID, sent).
Proof.
  intro Herr. unfold check, bind. rewrite (token_eval _ _ _ _ Htoken), Haccess. simpl.
  unfold request, bind, emit, lift. simpl. simpl in Hcheck. rewrite Hcheck. simpl.
  rewrite Herr. simpl. unfold sent. now rewrite add_events_app.
Qed.

Lemma check_eval_rows (err rows : json) (xs : list json) :
  dict_get res "error" = inr err ->
  py_eq_str err "PAYMENT_NOTFOUND" = false ->
  getitem res "rows" = inr rows ->
  iter rows = inr xs ->
  check env self order_id w =
  (match scan_rows xs with
   | inl e => inl e
   | inr (Some i) => inr i
   | inr None => inr NOT_PAID
   end, sent).
Proof.
  intros Herr Hne Hrows Hiter. unfold check, bind.
  rewrite (token_eval _ _ _ _ Htoken), Haccess. simpl.
  unfold request, bind, emit, lift. simpl. simpl in Hcheck. rewrite Hcheck. simpl.
  rewrite Herr. simpl. rewrite Hne. simpl. rewrite Hrows. simpl.
  rewrite Hiter. simpl. unfold sent. rewrite add_events_app. simpl.
  destruct (scan_rows xs) as [e | [i |]]; reflexivity.
Qed.

End CheckEval.

(** On rows that all carry a payment status, the scan is [find]. *)
Lemma scan_rows_find (rows : list json) :
  Forall has_payment_status rows -> scan_rows rows = inr (find is_paid rows).
Proof.
  induction 1 as [| r rows [st Hst] _ IH]; simpl; [reflexivity |].
  unfold is_paid. rewrite Hst.
  destruct (py_eq_str st "PAID"); [reflexivity | exact IH].
Qed.

(** ** [handle_processor_response], case by case on what [check] reported *)

Section ConfirmEval.

Variables (env : Env) (self : Qpay) (pid : pyid) (basket : option Basket).
Variables (w w1 : World).

Lemma confirm_check_failed (e : exn) :
  check env self pid w = (inl e, w1) ->
  handle_processor_response env self pid basket w = (inl e, w1).
Proof. intro H. unfold handle_processor_response, bind. now rewrite H. Qed.

Lemma confirm_not_paid (b : Basket) :
  check env self pid w = (inr NOT_PAID, w1) ->
  basket = Some b ->
  handle_processor_response env self pid basket w =
  match audit_write env (audit_row NOT_PAID pid basket) with
  | Some e => (inl e, add_events w1 [AuditWrite (audit_row NOT_PAID pid basket)])
  | None =>
      (inl OrderNotPaidException,
       add_events
         (add_audit_row
            (add_events w1 [AuditWrite (audit_row NOT_PAID pid basket)])
            (audit_row NOT_PAID pid basket))
         [Log EXCEPTION "QPAY NOT PAID for basket [%d]: %s}"])
  end.
Proof.
  intros H ->. unfold handle_processor_response, bind. rewrite H. simpl.
  unfold record_processor_response, bind, emit. fold (audit_row NOT_PAID pid (Some b)).
  destruct (audit_write env (audit_row NOT_PAID pid (Some b))); reflexivity.
Qed.

Lemma confirm_paid (row : json) :
  check env self pid w = (inr row, w1) ->
  getitem row "payment_status" = inr (JStr "PAID") ->
  handle_processor_response env self pid basket w =
  match getitem row "status" with
  | inl e => (inl e, w1)
  | inr s =>
      if py_eq_str s "succeeded" then
        bind (record_processor_response env row pid basket)
             (fun _ =>
                match basket with
                | None => raise AttributeError
                | Some b =>
                    bind (logger INFO "Successfully confirmed QPay payment intent [%s] for basket [%d] and order number [%s].")
                         (fun _ => ret {| transaction_id := pid;
                                          total := total_incl_tax b;
                                          hpr_currency := currency b;
                                          card_number := "Qpay";
                                          card_type := pid |})
                end) w1
      else (inl AssertionError, w1)
  end.
Proof.
  intros H Hst. unfold handle_processor_response. unfold bind at 1. rewrite H.
  unfold bind at 1. rewrite Hst. simpl.
  unfold bind at 1. destruct (getitem row "status") as [e | s]; simpl; [reflexivity |].
  destruct (py_eq_str s "succeeded"); simpl; [| reflexivity].
  unfold bind.
  destruct (record_processor_response env row pid basket w1) as [[e | []] w2];
    [reflexivity |].
  destruct basket as [b |]; reflexivity.
Qed.

End ConfirmEval.

(** With a working audit table, the paid path ends in a record and one
    audit row. *)
Lemma confirm_paid_succeeded
    (env : Env) (self : Qpay) (pid : pyid) (b : Basket) (w w1 : World)
    (row : json) :
  check env self pid w = (inr row, w1) ->
  getitem row "payment_status" = inr (JStr "PAID") ->
  getitem row "status" = inr (JStr "succeeded") ->
  audit_write env (audit_row row pid (Some b)) = None ->
  handle_processor_response env self pid (Some b) w =
  (inr {| transaction_id := pid;
          total := total_incl_tax b;
          hpr_currency := currency b;
          card_number := "Qpay";
          card_type := pid |},
   add_events
     (add_audit_row (add_events w1 [AuditWrite (audit_row row pid (Some b))])
                    (audit_row row pid (Some b)))
     [Log INFO "Successfully confirmed QPay payment intent [%s] for basket [%d] and order number [%s]."]).
Proof.
  intros Hc Hp Hs Ha. rewrite (confirm_paid _ _ _ _ _ _ _ Hc Hp), Hs. simpl.
  unfold bind, record_processor_response, bind, emit.
  fold (audit_row row pid (Some b)). now rewrite Ha.
Qed.

Lemma py_eq_str_true (v : json) (s : string) :
  py_eq_str v s = true <-> v = JStr s.
Proof.
  split.
  - destruct v; simpl; try discriminate. intro H. apply String.eqb_eq in H. now subst.
  - intros ->. simpl. apply String.eqb_refl.
Qed.

(** Closes the side goals of a case analysis on a confirmation: each is an
    impossible equation, arithmetic, or an instance at hand. *)
Ltac confirm_case :=
  intros;
  repeat match goal with
         | H : inr _ = inr _ |- _ => injection H as H; subst
         | H : inl _ = inl _ |- _ => injection H as H; subst
         | H : inl _ = inr _ |- _ => discriminate H
         | H : inr _ = inl _ |- _ => discriminate H
         end;
  repeat apply conj;
  try solve [ discriminate | lia | congruence | assumption
            | eexists; repeat split; (reflexivity || eassumption || lia) ].

(* ================================================================== *)
(** ** Confirmation: when is the audit trail written? *)

(** C1, as the code has it. Given a working audit table, a confirmation
    returns a payment record only when [check] reported a row whose
    payment status is "PAID", and then exactly one audit write precedes
    the return; when [check] reports the canonical not-paid value, exactly
    one audit write is made and the call fails with [OrderNotPaidException].
    A call that fails inside [check], or on the statement that asserts the
    row's "status" field, makes no audit write at all: every call makes at
    most one, not exactly one. *)
Theorem confirm_audit_write_accounting
    (env : Env) (self : Qpay) (pid : pyid) (b : Basket) (w : World) :
  (forall row, audit_write env row = None) ->
  let reported := fst (check env self pid w) in
  let out := handle_processor_response env self pid (Some b) w in
  (forall h, fst out = inr h ->
     exists row,
       reported = inr row /\
       getitem row "payment_status" = inr (JStr "PAID") /\
       audit_writes (snd out) = S (audit_writes w) /\
       audit_log (snd out) = (audit_log w ++ [audit_row row pid (Some b)])%list)
  /\ (reported = inr NOT_PAID ->
        fst out = inl OrderNotPaidException /\
        audit_writes (snd out) = S (audit_writes w) /\
        audit_log (snd out) = (audit_log w ++ [audit_row NOT_PAID pid (Some b)])%list)
  /\ (forall e, reported = inl e ->
        fst out = inl e /\
        audit_writes (snd out) = audit_writes w /\ audit_log (snd out) = audit_log w)
  /\ (forall row, reported = inr row -> is_paid row = true ->
        getitem row "status" <> inr (JStr "succeeded") ->
        (exists e, fst out = inl e) /\
        audit_writes (snd out) = audit_writes w /\ audit_log (snd out) = audit_log w)
  /\ (audit_writes (snd out) <= S (audit_writes w))%nat.
Proof.
  intros Haudit reported out. subst reported out.
  destruct (only_http_audit (check env self pid) w (only_http_check env self pid))
    as (Hn & Hlog & _).
  destruct (check env self pid w) as [[e | row] w1] eqn:Hc; simpl in Hn, Hlog |- *.
  - (* the status query itself failed *)
    rewrite (confirm_check_failed _ _ _ _ _ _ e Hc). simpl.
    repeat apply conj; confirm_case.
  - destruct (check_returns env self pid w row) as [-> | Hpaid];
      [now rewrite Hc | |].
    + (* not paid *)
      rewrite (confirm_not_paid _ _ _ _ _ _ b Hc eq_refl), Haudit. cbn [fst snd].
      count_audit_writes. rewrite Hn. simpl. rewrite Hlog.
      repeat apply conj; confirm_case.
    + (* a paid row *)
      pose proof (is_paid_status _ Hpaid) as Hst.
      destruct (getitem row "status") as [e | s] eqn:Hs.
      { rewrite (confirm_paid _ _ _ _ _ _ _ Hc Hst), Hs. simpl.
        repeat apply conj; confirm_case. }
      destruct (py_eq_str s "succeeded") eqn:Heq.
      * apply py_eq_str_true in Heq. subst s.
        rewrite (confirm_paid_succeeded _ _ _ _ _ _ _ Hc Hst Hs (Haudit _)).
        cbn [fst snd]. count_audit_writes. rewrite Hn. simpl. rewrite Hlog.
        repeat apply conj; confirm_case.
      * rewrite (confirm_paid _ _ _ _ _ _ _ Hc Hst), Hs, Heq. simpl.
        repeat apply conj; confirm_case.
Qed.

Lemma confirm_audit_write_accounting_witness :
  (fst (handle_processor_response env_notfound sample_qpay INV_1
          (Some sample_basket) empty_world) = inl OrderNotPaidException /\
   audit_writes (snd (handle_processor_response env_notfound sample_qpay INV_1
                        (Some sample_basket) empty_world)) = 1%nat) /\
  (exists row,
     fst (check env_paid_succeeded sample_qpay INV_1 empty_world) = inr row /\
     getitem row "payment_status" = inr (JStr "PAID") /\
     audit_writes (snd (handle_processor_response env_paid_succeeded sample_qpay
                          INV_1 (Some sample_basket) empty_world)) = 1%nat).
Proof.
  split.
  - destruct (confirm_audit_write_accounting env_notfound sample_qpay INV_1
                sample_basket empty_world (fun _ => eq_refl)) as (_ & Hnp & _).
    destruct (Hnp eq_refl) as (H1 & H2 & _). split; [exact H1 | exact H2].
  - destruct (confirm_audit_write_accounting env_paid_succeeded sample_qpay INV_1
                sample_basket empty_world (fun _ => eq_refl)) as (Hp & _).
    destruct (Hp _ eq_refl) as (row & H1 & H2 & H3 & _).
    exists row. split; [exact H1 | split; [exact H2 | exact H3]].
Defined.

(** C1 as stated does not hold: when the gateway lists a paid row in its
    own format, which has no "status" field, the confirmation fails on the
    assertion statement before any audit write is made, so that call makes
    none where the claim says every call makes exactly one. *)
Lemma confirm_paid_row_without_status_writes_no_audit :
  fst (check env_paid_no_status sample_qpay INV_1 empty_world) = inr paid_row /\
  fst (handle_processor_response env_paid_no_status sample_qpay INV_1
         (Some sample_basket) empty_world) = inl (KeyError "status") /\
  audit_log (snd (handle_processor_response env_paid_no_status sample_qpay INV_1
                    (Some sample_basket) empty_world)) = [] /\
  audit_writes (snd (handle_processor_response env_paid_no_status sample_qpay INV_1
                       (Some sample_basket) empty_world))
    <> S (audit_writes empty_world).
Proof. vm_compute. repeat split; discriminate. Qed.

(* ================================================================== *)
(** ** Confirmation when the gateway answers PAYMENT_NOTFOUND *)

(** C2, as the code has it. When the gateway hands out a token and its
    [payment/check] answer carries [error: "PAYMENT_NOTFOUND"], and the
    audit table accepts the write, the confirmation fails with
    [OrderNotPaidException] and the audit table gains exactly one row. The
    row's response is the canonical [{'payment_status': 'NOT-PAID'}] that
    [check] returned, not the body the gateway sent. *)
Theorem confirm_payment_notfound_records_canonical
    (env : Env) (self : Qpay) (pid : pyid) (b : Basket) (w : World)
    (tokres : json) (tok : string) (body : json) :
  http env (token_request self) = inr tokres ->
  getitem tokres "access_token" = inr (JStr tok) ->
  http env (check_request self ("Bearer " ++ tok) pid) = inr body ->
  dict_get body "error" = inr (JStr "PAYMENT_NOTFOUND") ->
  audit_write env (audit_row NOT_PAID pid (Some b)) = None ->
  let out := handle_processor_response env self pid (Some b) w in
  fst out = inl OrderNotPaidException /\
  audit_log (snd out) = (audit_log w ++ [audit_row NOT_PAID pid (Some b)])%list /\
  audit_writes (snd out) = S (audit_writes w).
Proof.
  intros Htok Hacc Hchk Herr Haudit out. subst out.
  pose proof (check_eval_notfound env self pid w tokres tok body Htok Hacc Hchk Herr)
    as Hc.
  rewrite (confirm_not_paid _ _ _ _ _ _ b Hc eq_refl), Haudit. cbn [fst snd].
  count_audit_writes. simpl. repeat split. lia.
Qed.

Lemma confirm_payment_notfound_records_canonical_witness :
  fst (handle_processor_response env_notfound sample_qpay INV_1
         (Some sample_basket) empty_world) = inl OrderNotPaidException /\
  audit_log (snd (handle_processor_response env_notfound sample_qpay INV_1
                    (Some sample_basket) empty_world))
    = [audit_row NOT_PAID INV_1 (Some sample_basket)].
Proof.
  destruct (confirm_payment_notfound_records_canonical env_notfound sample_qpay
              INV_1 sample_basket empty_world
              (JObj [("access_token", JStr "t0k")]) "t0k" payment_notfound_body
              eq_refl eq_refl eq_refl eq_refl eq_refl) as (H1 & H2 & _).
  split; [exact H1 | exact H2].
Defined.

(** C2 as stated does not hold: with the gateway answering
    [{error: "PAYMENT_NOTFOUND"}], no row of the audit table holds that
    body. *)
Lemma confirm_payment_notfound_entry_is_not_raw_body :
  http env_notfound (check_request sample_qpay "Bearer t0k" INV_1)
    = inr payment_notfound_body /\
  ~ (exists entry,
       In entry (audit_log (snd (handle_processor_response env_notfound
                   sample_qpay INV_1 (Some sample_basket) empty_world))) /\
       response entry = payment_notfound_body).
Proof.
  split; [reflexivity |].
  intros (entry & Hin & Hresp). vm_compute in Hin.
  destruct Hin as [<- | []]. discriminate Hresp.
Qed.

(* ================================================================== *)
(** ** The assertion on a paid row *)

(** C3. Whenever [check] reports a row whose payment status is "PAID",
    the confirmation returns a payment record only if the row's "status"
    field reads "succeeded". If it does not, the statement
    [assert confirm_api_response['status'] == "succeeded"] raises
    ([AssertionError] when the field holds something else,
    [KeyError('status')] when the field is absent): the call fails, no
    payment record is built and nothing is written to the audit table. *)
Theorem confirm_paid_row_needs_succeeded
    (env : Env) (self : Qpay) (pid : pyid) (basket : option Basket) (w : World)
    (row : json) :
  fst (check env self pid w) = inr row ->
  getitem row "payment_status" = inr (JStr "PAID") ->
  let out := handle_processor_response env self pid basket w in
  (forall h, fst out = inr h -> getitem row "status" = inr (JStr "succeeded"))
  /\ (getitem row "status" <> inr (JStr "succeeded") ->
        (fst out = inl AssertionError \/ fst out = inl (KeyError "status")) /\
        audit_writes (snd out) = audit_writes w /\
        audit_log (snd out) = audit_log w)
  /\ (forall s, getitem row "status" = inr s -> s <> JStr "succeeded" ->
        fst out = inl AssertionError).
Proof.
  intros Hfst Hst out. subst out.
  destruct (only_http_audit (check env self pid) w (only_http_check env self pid))
    as (Hn & Hlog & _).
  destruct (check env self pid w) as [r w1] eqn:Hc. simpl in Hfst, Hn, Hlog. subst r.
  rewrite (confirm_paid _ _ _ _ _ _ _ Hc Hst).
  destruct (getitem row "status") as [e | s] eqn:Hs.
  - (* the field is absent *)
    assert (e = KeyError "status") as ->.
    { revert Hs Hst. unfold getitem. destruct row; try discriminate.
      destruct (assoc "status" kvs); [discriminate | intros H _; now injection H]. }
    simpl. repeat apply conj; confirm_case. now right.
  - destruct (py_eq_str s "succeeded") eqn:Heq.
    + apply py_eq_str_true in Heq. subst s.
      repeat apply conj; confirm_case.
    + assert (s <> JStr "succeeded") as Hne.
      { intros ->. simpl in Heq. discriminate Heq. }
      simpl. repeat apply conj; confirm_case. now left.
Qed.

Lemma confirm_paid_row_needs_succeeded_witness :
  (fst (handle_processor_response env_paid_no_status sample_qpay INV_1
          (Some sample_basket) empty_world) = inl AssertionError \/
   fst (handle_processor_response env_paid_no_status sample_qpay INV_1
          (Some sample_basket) empty_world) = inl (KeyError "status")) /\
  audit_log (snd (handle_processor_response env_paid_no_status sample_qpay INV_1
                    (Some sample_basket) empty_world)) = [].
Proof.
  destruct (confirm_paid_row_needs_succeeded env_paid_no_status sample_qpay INV_1
              (Some sample_basket) empty_world paid_row eq_refl eq_refl)
    as (_ & Hfail & _).
  destruct Hfail as (H1 & _ & H2); [discriminate |].
  split; [exact H1 | exact H2].
Defined.

(* ================================================================== *)
(** ** The status query *)

(** C4. When the gateway hands out a token and answers the status query,
    [check] has sent exactly the token request and one [payment/check]
    request for the given invoice, asking for page 1 with a limit of 100.
    It returns the canonical not-paid value when the answer carries
    [error: "PAYMENT_NOTFOUND"]; otherwise, on rows that carry a payment
    status, it returns the first row whose status equals "PAID", or the
    canonical not-paid value when there is none. *)
Theorem check_first_page_scan
    (env : Env) (self : Qpay) (order_id : pyid) (w : World)
    (tokres : json) (tok : string) (res : json) :
  http env (token_request self) = inr tokres ->
  getitem tokres "access_token" = inr (JStr tok) ->
  http env (check_request self ("Bearer " ++ tok) order_id) = inr res ->
  let query := check_request self ("Bearer " ++ tok) order_id in
  let out := check env self order_id w in
  snd out = add_events w [Http (token_request self); Http query]
  /\ data query =
       DataForm [("object_type", FVal (Some "INVOICE"));
                 ("object_id", FVal order_id);
                 ("offset", FDumps (JObj [("page_number", JNum 1);
                                          ("page_limit", JNum 100)]))]
  /\ (dict_get res "error" = inr (JStr "PAYMENT_NOTFOUND") ->
        fst out = inr NOT_PAID)
  /\ (forall err rows,
        dict_get res "error" = inr err ->
        err <> JStr "PAYMENT_NOTFOUND" ->
        getitem res "rows" = inr (JArr rows) ->
        Forall has_payment_status rows ->
        fst out = inr (match find is_paid rows with
                       | Some row => row
                       | None => NOT_PAID
                       end)).
Proof.
  intros Htok Hacc Hchk query out. subst query out.
  split; [exact (check_eval_world env self order_id w tokres tok res Htok Hacc Hchk) |].
  split; [reflexivity |].
  split.
  - intro Herr.
    now rewrite (check_eval_notfound env self order_id w tokres tok res Htok Hacc Hchk Herr).
  - intros err rows Herr Hne Hrows Hwf.
    assert (py_eq_str err "PAYMENT_NOTFOUND" = false) as Hneq.
    { destruct (py_eq_str err "PAYMENT_NOTFOUND") eqn:E; [| reflexivity].
      apply py_eq_str_true in E. contradiction. }
    rewrite (check_eval_rows env self order_id w tokres tok res Htok Hacc Hchk
               err (JArr rows) rows Herr Hneq Hrows eq_refl).
    rewrite (scan_rows_find rows Hwf). simpl.
    now destruct (find is_paid rows).
Qed.

Lemma check_first_page_scan_witness :
  fst (check env_paid_succeeded sample_qpay INV_1 empty_world)
    = inr paid_row_succeeded /\
  fst (check env_notfound sample_qpay INV_1 empty_world) = inr NOT_PAID.
Proof.
  split.
  - destruct (check_first_page_scan env_paid_succeeded sample_qpay INV_1 empty_world
                (JObj [("access_token", JStr "t0k")]) "t0k"
                (rows_body [new_row; paid_row_succeeded]) eq_refl eq_refl eq_refl)
      as (_ & _ & _ & Hscan).
    apply (Hscan JNull [new_row; paid_row_succeeded]); try reflexivity.
    + discriminate.
    + repeat constructor; eexists; reflexivity.
  - destruct (check_first_page_scan env_notfound sample_qpay INV_1 empty_world
                (JObj [("access_token", JStr "t0k")]) "t0k"
                payment_notfound_body eq_refl eq_refl eq_refl)
      as (_ & _ & Hnf & _).
    apply Hnf. reflexivity.
Defined.

(* ================================================================== *)
(** ** The amount sent to the gateway *)

Lemma digits_aux_length (fuel : nat) (n : N) (acc : string) :
  (String.length acc <= String.length (PyDecimal.digits_aux fuel n acc))%nat.
Proof.
  revert n acc. induction fuel as [| f IH]; intros n acc; simpl; [lia |].
  destruct (n <? 10)%N; simpl; [lia |].
  specialize (IH (n / 10)%N (String (PyDecimal.digit_char (n mod 10)) acc)).
  simpl in IH. lia.
Qed.

Lemma digits_nonempty (n : N) : (0 < String.length (PyDecimal.digits n))%nat.
Proof.
  unfold PyDecimal.digits. simpl.
  destruct (n <? 10)%N; simpl; [lia |].
  pose proof (digits_aux_length (N.to_nat (N.size n)) (n / 10)%N
                (String (PyDecimal.digit_char (n mod 10)) EmptyString)) as H.
  simpl in H. lia.
Qed.

Lemma append_empty_r (s : string) : s ++ EmptyString = s.
Proof. induction s; simpl; [reflexivity | now rewrite IHs]. Qed.

(** An integral decimal prints as its sign and its digits. *)
Lemma to_str_integral (s : bool) (n : N) :
  PyDecimal.to_str (PyDecimal.mk s n 0) =
  (if s then "-" else EmptyString) ++ PyDecimal.digits n.
Proof.
  unfold PyDecimal.to_str. cbn [PyDecimal.sign PyDecimal.coeff PyDecimal.exponent].
  pose proof (digits_nonempty n) as Hlen.
  set (ds := PyDecimal.digits n) in *.
  set (len := Z.of_nat (String.length ds)).
  assert (0 < len) as Hpos by (unfold len; lia).
  replace (0 + len) with len by lia.
  replace ((0 <=? 0) && (-6 <? len)) with true
    by (symmetry; apply andb_true_iff; split; [reflexivity | apply Z.ltb_lt; lia]).
  replace (len <=? 0) with false by (symmetry; apply Z.leb_gt; lia).
  rewrite Z.leb_refl, Z.eqb_refl, Z.sub_diag. simpl.
  now rewrite !append_empty_r.
Qed.

(** Within the context's precision, the product is exact. *)
Lemma mul_int_exact (d : PyDecimal.t) (n : N) :
  (PyDecimal.coeff d * n < 10 ^ PyDecimal.prec)%N ->
  PyDecimal.mul_int d n =
  PyDecimal.mk (PyDecimal.sign d) (PyDecimal.coeff d * n) (PyDecimal.exponent d).
Proof.
  intro H. unfold PyDecimal.mul_int, PyDecimal.fix_.
  cbn [PyDecimal.sign PyDecimal.coeff PyDecimal.exponent].
  apply N.ltb_lt in H. rewrite H.
  now rewrite xorb_false_r, Z.add_0_r.
Qed.


(** The digit string of [n] reads back as [n]. *)
Lemma digit_value_digit_char (d : N) :
  (d < 10)%N -> digit_value (PyDecimal.digit_char d) = Some d.
Proof.
  intro H.
  assert (d = 0 \/ d = 1 \/ d = 2 \/ d = 3 \/ d = 4 \/ d = 5 \/ d = 6 \/
          d = 7 \/ d = 8 \/ d = 9)%N
    as [-> | [-> | [-> | [-> | [-> | [-> | [-> | [-> | [-> | ->]]]]]]]]] by lia;
    reflexivity.
Qed.

Lemma parse_digits_aux (fuel : nat) :
  forall (n : N) (acc : string),
    (n < 2 ^ N.of_nat fuel)%N ->
    parse_digits (PyDecimal.digits_aux fuel n acc) 0 = parse_digits acc n.
Proof.
  induction fuel as [| f IH]; intros n acc Hn.
  - simpl in *. assert (n = 0)%N as -> by lia. reflexivity.
  - assert (n < 2 * 2 ^ N.of_nat f)%N as Hn'.
    { rewrite Nat2N.inj_succ, N.pow_succ_r' in Hn. exact Hn. }
    cbn [PyDecimal.digits_aux].
    destruct (n <? 10)%N eqn:E.
    + apply N.ltb_lt in E. rewrite N.mod_small by exact E.
      cbn [parse_digits]. rewrite (digit_value_digit_char n E).
      now rewrite N.mul_0_r, N.add_0_l.
    + rewrite IH.
      * cbn [parse_digits].
        rewrite (digit_value_digit_char (n mod 10)) by (apply N.mod_lt; discriminate).
        f_equal. symmetry. apply N.div_mod. discriminate.
      * apply N.Div0.div_lt_upper_bound. lia.
Qed.

Lemma digits_fuel (n : N) :
  (n < 2 ^ N.of_nat (S (N.to_nat (N.size n))))%N.
Proof.
  rewrite Nat2N.inj_succ, N2Nat.id, N.pow_succ_r'.
  pose proof (N.size_gt n). lia.
Qed.

Lemma decimal_value_digits (n : N) :
  decimal_value (PyDecimal.digits n) = Some n.
Proof.
  pose proof (digits_nonempty n) as Hlen.
  pose proof (parse_digits_aux (S (N.to_nat (N.size n))) n EmptyString
                (digits_fuel n)) as Hp.
  fold (PyDecimal.digits n) in Hp.
  unfold decimal_value.
  destruct (PyDecimal.digits n) as [| c rest]; [simpl in Hlen; lia |].
  exact Hp.
Qed.

Lemma digit_char_nonzero (d : N) :
  (1 <= d < 10)%N -> Ascii.eqb (PyDecimal.digit_char d) "0" = false.
Proof.
  intro H.
  assert (d = 1 \/ d = 2 \/ d = 3 \/ d = 4 \/ d = 5 \/ d = 6 \/
          d = 7 \/ d = 8 \/ d = 9)%N
    as [-> | [-> | [-> | [-> | [-> | [-> | [-> | [-> | ->]]]]]]]] by lia;
    reflexivity.
Qed.

Lemma digits_aux_head (fuel : nat) :
  forall (n : N) (acc : string),
    (1 <= n)%N -> (n < 2 ^ N.of_nat fuel)%N ->
    exists c rest,
      PyDecimal.digits_aux fuel n acc = String c rest /\
      Ascii.eqb c "0" = false.
Proof.
  induction fuel as [| f IH]; intros n acc H1 Hn.
  - simpl in Hn. lia.
  - assert (n < 2 * 2 ^ N.of_nat f)%N as Hn'.
    { rewrite Nat2N.inj_succ, N.pow_succ_r' in Hn. exact Hn. }
    cbn [PyDecimal.digits_aux].
    destruct (n <? 10)%N eqn:E.
    + apply N.ltb_lt in E. rewrite N.mod_small by exact E.
      eexists; eexists; split; [reflexivity |].
      apply digit_char_nonzero. lia.
    + apply N.ltb_ge in E. apply IH.
      * apply N.div_le_lower_bound; [discriminate | lia].
      * apply N.Div0.div_lt_upper_bound. lia.
Qed.

(** It has no zero in front of other digits. *)
Lemma leading_zero_digits (n : N) : leading_zero (PyDecimal.digits n) = false.
Proof.
  destruct (N.eq_dec n 0) as [-> | Hn0]; [reflexivity |].
  destruct (digits_aux_head (S (N.to_nat (N.size n))) n EmptyString)
    as (c & rest & Hd & Hc); [lia | apply digits_fuel |].
  fold (PyDecimal.digits n) in Hd. rewrite Hd. simpl.
  now destruct rest.
Qed.




(** Ties go to the even neighbour, not away from zero: 19.985 becomes
    "1998". *)
Example get_basket_amount_tie_to_even :
  _get_basket_amount
    {| basket_id := 8; order_number := "EDX-100008"; lines := [1];
       total_incl_tax := PyDecimal.mk false 19985 (-3); currency := "MNT" |}
  = "1998".
Proof. reflexivity. Qed.

(* ================================================================== *)
(** ** Refunds *)

(** What [issue_credit] does once the gateway's refund call has failed. *)
Lemma issue_credit_refund_failed
    (env : Env) (self : Qpay) (order_no : string) (basket : option Basket)
    (ref : pyid) (amount : PyDecimal.t) (cur : string) (w w1 : World) (e : exn) :
  refund env self ref w = (inl e, w1) ->
  issue_credit env self order_no basket ref amount cur w =
  match audit_write env (audit_row (JObj []) ref basket) with
  | Some e' => (inl e', add_events w1 [AuditWrite (audit_row (JObj []) ref basket)])
  | None =>
      (inl e,
       add_events
         (add_audit_row
            (add_events w1 [AuditWrite (audit_row (JObj []) ref basket)])
            (audit_row (JObj []) ref basket))
         [Log EXCEPTION "An error occurred while attempting to Refund (via QPAY) for order [{}]."])
  end.
Proof.
  intro H. unfold issue_credit, bind, try_except. rewrite H.
  unfold record_processor_response, bind, emit.
  fold (audit_row (JObj []) ref basket).
  destruct (audit_write env (audit_row (JObj []) ref basket)); reflexivity.
Qed.

(** C6, as the code has it. Whenever the gateway's refund call fails, with
    whatever error, [issue_credit] attempts exactly one audit write, of a
    row whose response is the empty dict. When the audit table accepts
    it, that one row is added and the call fails with the very error the
    refund call raised. When the audit write itself raises, no row is
    added and the call fails with the audit write's error. Either way the
    call fails: the refund's failure is never turned into a return. *)
Theorem issue_credit_failure_is_audited_and_reraised
    (env : Env) (self : Qpay) (order_no : string) (basket : option Basket)
    (ref : pyid) (amount : PyDecimal.t) (cur : string) (w : World) (e : exn) :
  fst (refund env self ref w) = inl e ->
  let out := issue_credit env self order_no basket ref amount cur w in
  let row := audit_row (JObj []) ref basket in
  audit_writes (snd out) = S (audit_writes w) /\
  (audit_write env row = None ->
     fst out = inl e /\ audit_log (snd out) = (audit_log w ++ [row])%list) /\
  (forall e', audit_write env row = Some e' ->
     fst out = inl e' /\ audit_log (snd out) = audit_log w) /\
  (exists e', fst out = inl e').
Proof.
  intros Hfail out row. subst out row.
  destruct (only_http_audit (refund env self ref) w (only_http_refund env self ref))
    as (Hn & Hlog & _).
  destruct (refund env self ref w) as [r w1] eqn:Hr. simpl in Hfail, Hn, Hlog. subst r.
  rewrite (issue_credit_refund_failed _ _ order_no basket _ amount cur _ _ _ Hr).
  destruct (audit_write env (audit_row (JObj []) ref basket)) as [e1 |];
    cbn [fst snd]; count_audit_writes; rewrite Hn; simpl; rewrite ?Hlog.
  - split; [lia |]. split; [discriminate |]. split.
    + intros e' He'. injection He' as <-. split; reflexivity.
    + now exists e1.
  - split; [lia |]. split; [intros _; split; reflexivity |]. split.
    + discriminate.
    + now exists e.
Qed.

Lemma issue_credit_failure_is_audited_and_reraised_witness :
  fst (issue_credit env_refund_down sample_qpay "EDX-100007" (Some sample_basket)
         INV_1 (PyDecimal.mk false 19995 (-3)) "MNT" empty_world)
    = inl (RequestException "connection refused") /\
  audit_log (snd (issue_credit env_refund_down sample_qpay "EDX-100007"
                    (Some sample_basket) INV_1 (PyDecimal.mk false 19995 (-3))
                    "MNT" empty_world))
    = [audit_row (JObj []) INV_1 (Some sample_basket)].
Proof.
  destruct (issue_credit_failure_is_audited_and_reraised env_refund_down sample_qpay
              "EDX-100007" (Some sample_basket) INV_1 (PyDecimal.mk false 19995 (-3))
              "MNT" empty_world (RequestException "connection refused")
              eq_refl) as (_ & H & _).
  exact (H eq_refl).
Defined.

(** C6 as stated does not hold for every failing refund: with the audit
    table down, the refund call fails with a transport error, yet no
    record of the attempt is written and the caller sees the audit
    write's error, not the refund's. *)
Lemma refund_failure_with_audit_down_leaves_no_record :
  fst (refund env_refund_and_audit_down sample_qpay INV_1 empty_world)
    = inl (RequestException "connection refused") /\
  fst (issue_credit env_refund_and_audit_down sample_qpay "EDX-100007"
         (Some sample_basket) INV_1 (PyDecimal.mk false 19995 (-3)) "MNT"
         empty_world)
    = inl (DatabaseError "audit table unavailable") /\
  audit_log (snd (issue_credit env_refund_and_audit_down sample_qpay "EDX-100007"
                    (Some sample_basket) INV_1 (PyDecimal.mk false 19995 (-3))
                    "MNT" empty_world))
    = [].
Proof. vm_compute. repeat split. Qed.

(* ================================================================== *)
(** ** A failing audit write *)

(** C7, as the code has it. Nothing guards the audit write. When it
    raises on the not-paid path of the confirmation, or in the [except]
    block of [issue_credit], the caller sees the audit write's error in
    place of [OrderNotPaidException] or of the refund's error, and the
    audit table is left as it was. *)
Theorem audit_failure_replaces_original_failure
    (env : Env) (self : Qpay) (w : World) (e' : exn) :
  (forall pid b,
     fst (check env self pid w) = inr NOT_PAID ->
     audit_write env (audit_row NOT_PAID pid (Some b)) = Some e' ->
     fst (handle_processor_response env self pid (Some b) w) = inl e' /\
     audit_log (snd (handle_processor_response env self pid (Some b) w))
       = audit_log w)
  /\
  (forall order_no basket ref amount cur e,
     fst (refund env self ref w) = inl e ->
     audit_write env (audit_row (JObj []) ref basket) = Some e' ->
     fst (issue_credit env self order_no basket ref amount cur w) = inl e' /\
     audit_log (snd (issue_credit env self order_no basket ref amount cur w))
       = audit_log w).
Proof.
  split.
  - intros pid b Hrep Haudit.
    destruct (only_http_audit (check env self pid) w (only_http_check env self pid))
      as (_ & Hlog & _).
    destruct (check env self pid w) as [r w1] eqn:Hc. simpl in Hrep, Hlog. subst r.
    rewrite (confirm_not_paid _ _ _ _ _ _ b Hc eq_refl), Haudit.
    split; [reflexivity | exact Hlog].
  - intros order_no basket ref amount cur e Hfail Haudit.
    destruct (only_http_audit (refund env self ref) w (only_http_refund env self ref))
      as (_ & Hlog & _).
    destruct (refund env self ref w) as [r w1] eqn:Hr. simpl in Hfail, Hlog. subst r.
    rewrite (issue_credit_refund_failed _ _ order_no basket _ amount cur _ _ _ Hr),
      Haudit.
    split; [reflexivity | exact Hlog].
Qed.

Lemma audit_failure_replaces_original_failure_witness :
  fst (handle_processor_response env_audit_down sample_qpay INV_1
         (Some sample_basket) empty_world)
    = inl (DatabaseError "audit table unavailable") /\
  fst (issue_credit env_refund_and_audit_down sample_qpay "EDX-100007"
         (Some sample_basket) INV_1 (PyDecimal.mk false 19995 (-3)) "MNT"
         empty_world)
    = inl (DatabaseError "audit table unavailable").
Proof.
  split.
  - destruct (audit_failure_replaces_original_failure env_audit_down sample_qpay
                empty_world (DatabaseError "audit table unavailable")) as (Hc & _).
    destruct (Hc INV_1 sample_basket eq_refl eq_refl) as (H & _). exact H.
  - destruct (audit_failure_replaces_original_failure env_refund_and_audit_down
                sample_qpay empty_world (DatabaseError "audit table unavailable"))
      as (_ & Hr).
    destruct (Hr "EDX-100007" (Some sample_basket) INV_1
                 (PyDecimal.mk false 19995 (-3)) "MNT"
                 (RequestException "connection refused") eq_refl eq_refl)
      as (H & _).
    exact H.
Defined.

(** C7 as stated does not hold: with the audit table down, the not-paid
    confirmation does not end in [OrderNotPaidException], and the failed
    refund does not end in the refund's own error. *)
Lemma audit_failure_masks_original_failure :
  fst (check env_audit_down sample_qpay INV_1 empty_world) = inr NOT_PAID /\
  fst (handle_processor_response env_audit_down sample_qpay INV_1
         (Some sample_basket) empty_world) <> inl OrderNotPaidException /\
  fst (refund env_refund_and_audit_down sample_qpay INV_1 empty_world)
    = inl (RequestException "connection refused") /\
  fst (issue_credit env_refund_and_audit_down sample_qpay "EDX-100007"
         (Some sample_basket) INV_1 (PyDecimal.mk false 19995 (-3)) "MNT"
         empty_world) <> inl (RequestException "connection refused").
Proof. vm_compute. repeat split; discriminate. Qed.

(* ================================================================== *)
(** ** The capture context of an empty basket *)

(** C10. For a request whose basket has no lines, [get_capture_context]
    builds the default response with the keys [invoice_id], [qr_code] and
    [qr_link], then reads [qPay_shortUrl] from it: the call always raises
    [KeyError('qPay_shortUrl')], having sent nothing to the gateway, and
    so does the view that serves it. *)
Theorem capture_context_empty_basket_raises
    (env : Env) (self : Qpay) (w : World) (b : Basket) :
  get_basket env = inr b ->
  lines b = [] ->
  get_capture_context env self w =
    (inl (KeyError "qPay_shortUrl"),
     add_events w [Log INFO "QPay capture-context called with empty basket [%d] and order number [%s]."])
  /\ fst (post env self w) = inl (KeyError "qPay_shortUrl").
Proof.
  intros Hb Hlines.
  assert (get_capture_context env self w =
    (inl (KeyError "qPay_shortUrl"),
     add_events w [Log INFO "QPay capture-context called with empty basket [%d] and order number [%s]."]))
    as H.
  { unfold get_capture_context, bind. rewrite Hb. simpl. now rewrite Hlines. }
  split; [exact H |].
  unfold post, bind. now rewrite H.
Qed.

Lemma capture_context_empty_basket_raises_witness :
  fst (get_capture_context env_empty_basket sample_qpay empty_world)
    = inl (KeyError "qPay_shortUrl").
Proof.
  destruct (capture_context_empty_basket_raises env_empty_basket sample_qpay
              empty_world empty_basket eq_refl eq_refl) as (H & _).
  now rewrite H.
Defined.

(* ================================================================== *)
(** ** What a payment attempt leaves in the trace *)

Lemma grows_ret {A : Type} (a : A) : grows (ret a).
Proof. intro w; exists []; simpl; now rewrite app_nil_r. Qed.

Lemma grows_raise {A : Type} (e : exn) : grows (@raise A e).
Proof. intro w; exists []; simpl; now rewrite app_nil_r. Qed.

Lemma grows_lift {A : Type} (r : exn + A) : grows (lift r).
Proof. destruct r; [apply grows_raise | apply grows_ret]. Qed.

Lemma grows_emit (ev : Event) : grows (emit ev).
Proof. intro w; now exists [ev]. Qed.

Lemma grows_bind {A B : Type} (m : M A) (f : A -> M B) :
  grows m -> (forall a, grows (f a)) -> grows (bind m f).
Proof.
  intros Hm Hf w. unfold bind. destruct (Hm w) as [evs Hw].
  destruct (m w) as [[e | a] w1]; simpl in *.
  - now exists evs.
  - destruct (Hf a w1) as [evs' Hw']. exists (evs ++ evs')%list.
    now rewrite Hw', Hw, app_assoc.
Qed.

Lemma grows_try_finally {A : Type} (m : M A) (f : M unit) :
  grows m -> grows f -> grows (try_finally m f).
Proof.
  intros Hm Hf w. unfold try_finally. destruct (Hm w) as [evs Hw].
  destruct (m w) as [r w1]; simpl in *.
  destruct (Hf w1) as [evs' Hw'].
  destruct (f w1) as [[e | []] w2]; simpl in *;
    exists (evs ++ evs')%list; now rewrite Hw', Hw, app_assoc.
Qed.

Lemma grows_only_http {A : Type} (m : M A) : only_http m -> grows m.
Proof. intros H w. destruct (H w) as [reqs Hw]. rewrite Hw. now eexists. Qed.

Lemma grows_external (ev : Event) (outcome : option exn) :
  grows (external ev outcome).
Proof.
  unfold external. apply grows_bind; [apply grows_emit |].
  intros _. destruct outcome; [apply grows_raise | apply grows_ret].
Qed.

Lemma grows_record_processor_response
    (env : Env) (resp : json) (txn : pyid) (basket : option Basket) :
  grows (record_processor_response env resp txn basket).
Proof.
  unfold record_processor_response. apply grows_bind; [apply grows_emit |].
  intros _. destruct (audit_write env _); [apply grows_raise |].
  intro w; exists []; simpl; now rewrite app_nil_r.
Qed.

Lemma starts_with_bind {A B : Type} (ev : Event) (m : M A) (f : A -> M B) :
  starts_with ev m -> (forall a, grows (f a)) -> starts_with ev (bind m f).
Proof.
  intros Hm Hf w. unfold bind. destruct (Hm w) as [evs Hw].
  destruct (m w) as [[e | a] w1]; simpl in *.
  - now exists evs.
  - destruct (Hf a w1) as [evs' Hw']. exists (evs ++ evs')%list.
    now rewrite Hw', Hw, <- app_assoc.
Qed.

Lemma starts_with_grows {A : Type} (ev : Event) (m : M A) :
  starts_with ev m -> grows m.
Proof. intros H w. destruct (H w) as [evs Hw]. now exists (ev :: evs). Qed.

Lemma token_starts (env : Env) (self : Qpay) :
  starts_with (Http (token_request self)) (token env self).
Proof.
  unfold token, request.
  apply starts_with_bind; [| intro; apply grows_lift].
  apply starts_with_bind; [| intro; apply grows_lift].
  intro w. now exists [].
Qed.

Lemma check_starts (env : Env) (self : Qpay) (order_id : pyid) :
  starts_with (Http (token_request self)) (check env self order_id).
Proof.
  unfold check. apply starts_with_bind; [apply token_starts |].
  intro tok. apply grows_only_http. frame.
Qed.

Lemma handle_processor_response_starts
    (env : Env) (self : Qpay) (pid : pyid) (basket : option Basket) :
  starts_with (Http (token_request self))
              (handle_processor_response env self pid basket).
Proof.
  unfold handle_processor_response.
  apply starts_with_bind; [apply check_starts |].
  intro r.
  repeat first
    [ apply grows_ret | apply grows_raise | apply grows_lift
    | apply grows_record_processor_response | apply grows_emit
    | apply grows_bind; [ | intro ]
    | match goal with
      | |- grows (if ?c then _ else _) => destruct c
      end ].
Qed.

(** Every payment attempt of the callback view begins by asking the
    gateway for a token: an invocation of [handle_payment] shows in the
    trace as an [Http] event. *)
Lemma handle_payment_contacts_gateway
    (env : Env) (processor : Qpay) (pid : pyid) (b : Basket) :
  starts_with (Http (token_request processor))
              (handle_payment env (ProcessorInstance processor) pid b).
Proof.
  intro w. unfold handle_payment, bind. simpl.
  destruct (handle_processor_response_starts env processor pid (Some b) w)
    as [evs Hw].
  destruct (handle_processor_response env processor pid (Some b) w)
    as [[ex | h] w1]; simpl in Hw.
  - destruct (grows_try_finally (@raise unit ex)
                (do_track_segment_event env
                   {| sp_basket_id := basket_id b; sp_processor_name := NAME;
                      sp_stripe_enabled := false; sp_success := Some false;
                      sp_payment_error := Some (exn_name ex); sp_total := None |})
                (grows_raise ex) (grows_external _ _) w1) as [evs' Hw'].
    exists (evs ++ evs')%list. rewrite Hw', Hw. now rewrite <- app_assoc.
  - destruct (grows_external (RecordPayment b h) (record_payment env b h) w1)
      as [evs1 Hw1].
    destruct (external (RecordPayment b h) (record_payment env b h) w1)
      as [[ex | []] w2]; simpl in Hw1.
    + destruct (grows_try_finally (@raise unit ex)
                  (do_track_segment_event env
                     {| sp_basket_id := basket_id b; sp_processor_name := NAME;
                        sp_stripe_enabled := false; sp_success := None;
                        sp_payment_error := None; sp_total := None |})
                  (grows_raise ex) (grows_external _ _) w2) as [evs' Hw'].
      exists (evs ++ evs1 ++ evs')%list. rewrite Hw', Hw1, Hw.
      now rewrite <- !app_assoc.
    + destruct (grows_try_finally (ret tt)
                  (do_track_segment_event env
                     {| sp_basket_id := basket_id b; sp_processor_name := NAME;
                        sp_stripe_enabled := false; sp_success := Some true;
                        sp_payment_error := None; sp_total := Some (total h) |})
                  (grows_ret tt) (grows_external _ _) w2) as [evs' Hw'].
      exists (evs ++ evs1 ++ evs')%list. rewrite Hw', Hw1, Hw.
      now rewrite <- !app_assoc.
Qed.

(* ================================================================== *)
(** ** The callback view: looking the basket up *)

Lemma objects_get_duplicate
    (table : list BasketAttribute) (t : string) (v : pyid) :
  (2 <= List.length (filter (attribute_matches t v) table))%nat ->
  objects_get table t v = inl MultipleObjectsReturned.
Proof.
  unfold objects_get.
  destruct (filter (attribute_matches t v) table) as [| a [| a' rest]];
    simpl; intro H; try lia. reflexivity.
Qed.

Lemma get_basket_duplicate
    (env : Env) (attr : string) (pid : pyid) (w : World) :
  (2 <= List.length (filter (attribute_matches attr pid) (basket_attributes w)))%nat ->
  _get_basket env attr pid w =
  (inr None,
   add_events w [Log WARNING "Duplicate payment_intent_id [%s] received from QPAY."]).
Proof.
  intro H. unfold _get_basket, try_except, bind.
  now rewrite (objects_get_duplicate _ _ _ H).
Qed.

(** C8. When more than one basket attribute carries the invoice id of an
    inbound callback, [_get_basket] logs the duplicate and returns no
    basket, and [get] answers with the redirect to the processor's error
    page. The trace gains the two log lines and nothing else, and no table
    changes. The payment step is not run: the outcome is the same whatever
    the step the view inherits is, and, for [QpayCheckView]'s
    [handle_payment], every invocation begins with a request to the
    gateway, of which the trace has none. *)
Theorem duplicate_correlation_is_an_error
    (env : Env) (attr : string) (step : pyid -> Basket -> M unit)
    (processor : Qpay)
    (query_params : list (string * string)) (w : World) (path : string) :
  let payment_intent_id := assoc "qpay_payment_id" query_params in
  (2 <= List.length (filter (attribute_matches attr payment_intent_id)
                            (basket_attributes w)))%nat ->
  config_item processor "error_path" = inr path ->
  let out := get env attr step processor query_params w in
  fst (_get_basket env attr payment_intent_id w) = inr None
  /\ fst out = inr (redirect (get_ecommerce_url env path))
  /\ snd out =
       add_events w
         [Log WARNING "Duplicate payment_intent_id [%s] received from QPAY.";
          Log INFO "Received QPAY payment notification for non-existent basket with payment intent id [%s]."]
  /\ filter is_http (trace (snd out)) = filter is_http (trace w)
  /\ (forall b w0, exists evs,
        trace (snd (handle_payment env (ProcessorInstance processor)
                      payment_intent_id b w0))
        = (trace w0 ++ Http (token_request processor) :: evs)%list)
  /\ (forall step' : pyid -> Basket -> M unit,
        get env attr step' processor query_params w = out).
Proof.
  intros pid Hdup Hpath out. subst out.
  pose proof (get_basket_duplicate env attr pid w Hdup) as Hgb.
  assert (forall step0 : pyid -> Basket -> M unit,
          get env attr step0 processor query_params w =
          (inr (redirect (get_ecommerce_url env path)),
           add_events w
             [Log WARNING "Duplicate payment_intent_id [%s] received from QPAY.";
              Log INFO "Received QPAY payment notification for non-existent basket with payment intent id [%s]."]))
    as Hget.
  { intro step0. unfold get. fold pid. unfold bind at 1. rewrite Hgb.
    unfold bind, logger, emit, error_url, bind, lift. rewrite Hpath. simpl.
    now rewrite add_events_app. }
  rewrite (Hget step), Hgb. cbn [fst snd].
  split; [reflexivity |]. split; [reflexivity |]. split; [reflexivity |].
  split; [| split].
  - unfold add_events; simpl. rewrite filter_app. simpl. now rewrite app_nil_r.
  - intros b w0. apply handle_payment_contacts_gateway.
  - exact Hget.
Qed.

Lemma duplicate_correlation_is_an_error_witness :
  fst (_get_basket env_notfound "payment_intent_id" INV_1 world_duplicate)
    = inr None /\
  fst (get env_notfound "payment_intent_id"
           (sample_payment_step env_notfound sample_qpay) sample_qpay callback_query
         world_duplicate)
    = inr (HttpResponseRedirect "https://ecommerce.example/checkout/error/") /\
  filter is_http
    (trace (snd (get env_notfound "payment_intent_id"
             (sample_payment_step env_notfound sample_qpay) sample_qpay callback_query
                   world_duplicate))) = [].
Proof.
  destruct (duplicate_correlation_is_an_error env_notfound "payment_intent_id"
              (sample_payment_step env_notfound sample_qpay)
              sample_qpay callback_query world_duplicate "/checkout/error/")
    as (H1 & H2 & _ & H4 & _).
  - vm_compute. repeat constructor.
  - reflexivity.
  - split; [exact H1 | split; [exact H2 | exact H4]].
Defined.

(* ================================================================== *)
(** ** The responses of the views *)

(** [QpayCheckView] keeps the string "qpay" under [payment_processor], so
    its payment step fails on the first attribute access, before anything
    is sent or recorded. *)
Lemma handle_payment_on_processor_name
    (env : Env) (s : string) (pid : pyid) (b : Basket) (w : World) :
  handle_payment env (ProcessorName s) pid b w = (inl AttributeError, w).
Proof. reflexivity. Qed.






(* ================================================================== *)
(** ** The gateway client: tokens, retries and malformed answers *)

Lemma token_world (env : Env) (self : Qpay) (w : World) :
  snd (token env self w) = add_events w [Http (token_request self)].
Proof.
  unfold token, request, bind, emit, lift.
  destruct (http env (token_request self)) as [e | res]; simpl; [reflexivity |].
  now destruct (getitem res "access_token").
Qed.

Lemma request_eval (env : Env) (r : Request) (w : World) :
  request env r w = (http env r, add_events w [Http r]).
Proof.
  unfold request, bind, emit, lift. now destruct (http env r).
Qed.

(** The world after [check], whatever the gateway does. *)
Lemma check_world (env : Env) (self : Qpay) (order_id : pyid) (w : World) :
  snd (check env self order_id w) = add_events w [Http (token_request self)] \/
  exists bearer,
    snd (check env self order_id w) =
    add_events w [Http (token_request self);
                  Http (check_request self bearer order_id)].
Proof.
  unfold check, bind.
  pose proof (token_world env self w) as Ht.
  destruct (token env self w) as [[e | tok] w1]; simpl in Ht; subst w1;
    [now left |].
  destruct (str_concat "Bearer " tok) as [e | bearer]; simpl; [now left |].
  right. exists bearer.
  unfold request, bind, emit, lift. simpl. rewrite add_events_app. simpl app.
  destruct (http env (check_request self bearer order_id)) as [e | res];
    simpl; [reflexivity |].
  destruct (dict_get res "error") as [e | err]; simpl; [reflexivity |].
  destruct (py_eq_str err "PAYMENT_NOTFOUND"); simpl; [reflexivity |].
  destruct (getitem res "rows") as [e | rows]; simpl; [reflexivity |].
  destruct (iter rows) as [e | xs]; simpl; [reflexivity |].
  destruct (scan_rows xs) as [e | [i |]]; reflexivity.
Qed.

Lemma refund_world (env : Env) (self : Qpay) (order_id : pyid) (w : World) :
  snd (refund env self order_id w) = add_events w [Http (token_request self)] \/
  exists bearer,
    snd (refund env self order_id w) =
    add_events w [Http (token_request self);
                  Http (refund_request self bearer order_id)].
Proof.
  unfold refund, bind.
  pose proof (token_world env self w) as Ht.
  destruct (token env self w) as [[e | tok] w1]; simpl in Ht; subst w1;
    [now left |].
  destruct (str_concat "Bearer " tok) as [e | bearer]; simpl; [now left |].
  right. exists bearer. unfold request, bind, emit, lift. simpl.
  rewrite add_events_app.
  now destruct (http env (refund_request self bearer order_id)).
Qed.

Lemma create_world (env : Env) (self : Qpay) (basket : Basket) (w : World) :
  snd (create env self basket w) = add_events w [Http (token_request self)] \/
  exists bearer,
    snd (create env self basket w) =
    add_events w [Http (token_request self);
                  Http (create_request self bearer basket)].
Proof.
  unfold create, bind.
  pose proof (token_world env self w) as Ht.
  destruct (token env self w) as [[e | tok] w1]; simpl in Ht; subst w1;
    [now left |].
  destruct (str_concat "Bearer " tok) as [e | bearer]; simpl; [now left |].
  right. exists bearer. unfold request, bind, emit, lift. simpl.
  rewrite add_events_app.
  now destruct (http env (create_request self bearer basket)).
Qed.

(** No retries. Whatever the gateway answers, a status query, a refund and
    an invoice creation each send the token request and then at most one
    request of their own; they write to no table. In particular one call
    of [refund] sends at most one DELETE. *)
Theorem gateway_calls_are_single_shot
    (env : Env) (self : Qpay) (order_id : pyid) (basket : Basket) (w : World) :
  (snd (check env self order_id w) = add_events w [Http (token_request self)] \/
   exists bearer,
     snd (check env self order_id w) =
     add_events w [Http (token_request self);
                   Http (check_request self bearer order_id)])
  /\
  (snd (refund env self order_id w) = add_events w [Http (token_request self)] \/
   exists bearer,
     snd (refund env self order_id w) =
     add_events w [Http (token_request self);
                   Http (refund_request self bearer order_id)])
  /\
  (snd (create env self basket w) = add_events w [Http (token_request self)] \/
   exists bearer,
     snd (create env self basket w) =
     add_events w [Http (token_request self);
                   Http (create_request self bearer basket)]).
Proof.
  split; [apply check_world | split; [apply refund_world | apply create_world]].
Qed.

(** Without a token that is a string, nothing but the token request is
    sent: the status query, the refund and the invoice creation all fail
    with the error of the token step ([KeyError('access_token')], the
    transport error, or [TypeError] from ['Bearer ' + token]). *)
Theorem no_request_without_token
    (env : Env) (self : Qpay) (order_id : pyid) (basket : Basket) (w : World) :
  (forall t, fst (token env self w) <> inr (JStr t)) ->
  exists e,
    (fst (token env self w) = inl e \/
     (exists v, fst (token env self w) = inr v) /\ e = TypeError) /\
    check env self order_id w = (inl e, add_events w [Http (token_request self)]) /\
    refund env self order_id w = (inl e, add_events w [Http (token_request self)]) /\
    create env self basket w = (inl e, add_events w [Http (token_request self)]).
Proof.
  intro Hno.
  pose proof (token_world env self w) as Ht.
  unfold check, refund, create, bind.
  destruct (token env self w) as [[e | tok] w1]; simpl in *; subst w1.
  - exists e. split; [now left | repeat split].
  - exists TypeError.
    destruct tok as [| | | | s | |];
      try solve [ simpl; split;
                  [ right; split; [eexists; reflexivity | reflexivity]
                  | repeat split ] ].
    exfalso. now apply (Hno s).
Qed.

Lemma no_request_without_token_witness :
  check env_no_token sample_qpay INV_1 empty_world
    = (inl (KeyError "access_token"),
       add_events empty_world [Http (token_request sample_qpay)]) /\
  refund env_numeric_token sample_qpay INV_1 empty_world
    = (inl TypeError, add_events empty_world [Http (token_request sample_qpay)]).
Proof.
  split.
  - destruct (no_request_without_token env_no_token sample_qpay INV_1
                sample_basket empty_world) as (e & He & Hc & _).
    + intros t H. discriminate H.
    + destruct He as [He | [_ He]].
      * vm_compute in He. injection He as <-. exact Hc.
      * subst e. vm_compute in Hc. discriminate Hc.
  - destruct (no_request_without_token env_numeric_token sample_qpay INV_1
                sample_basket empty_world) as (e & He & _ & Hr & _).
    + intros t H. discriminate H.
    + destruct He as [He | [_ He]].
      * discriminate He.
      * subst e. exact Hr.
Defined.

(** ** Answers [check] cannot digest *)

Lemma scan_rows_stops (pre post : list json) (bad : json) (e : exn) :
  Forall (fun r => exists st, getitem r "payment_status" = inr st /\
                              py_eq_str st "PAID" = false) pre ->
  getitem bad "payment_status" = inl e ->
  scan_rows (pre ++ bad :: post) = inl e.
Proof.
  intros Hpre Hbad. induction Hpre as [| r pre (st & Hst & Hne) _ IH]; simpl.
  - now rewrite Hbad.
  - now rewrite Hst, Hne.
Qed.

(** An answer that is not a JSON object makes [check] fail with
    [AttributeError]; an object without [rows] that does not say
    PAYMENT_NOTFOUND makes it fail with [KeyError('rows')]. Neither is
    turned into the not-paid value. *)
Theorem check_malformed_answer
    (env : Env) (self : Qpay) (order_id : pyid) (w : World)
    (tokres : json) (tok : string) (res : json) :
  http env (token_request self) = inr tokres ->
  getitem tokres "access_token" = inr (JStr tok) ->
  http env (check_request self ("Bearer " ++ tok) order_id) = inr res ->
  ((forall kvs, res <> JObj kvs) ->
     fst (check env self order_id w) = inl AttributeError)
  /\
  (forall kvs,
     res = JObj kvs ->
     assoc "error" kvs <> Some (JStr "PAYMENT_NOTFOUND") ->
     assoc "rows" kvs = None ->
     fst (check env self order_id w) = inl (KeyError "rows")).
Proof.
  intros Htok Hacc Hchk.
  split.
  - intro Hnot.
    unfold check, bind. rewrite (token_eval _ _ _ _ Htok), Hacc. simpl.
    unfold request, bind, emit, lift. simpl. simpl in Hchk. rewrite Hchk. simpl.
    destruct res; try reflexivity. exfalso. now apply (Hnot kvs).
  - intros kvs -> Herr Hrows.
    unfold check, bind. rewrite (token_eval _ _ _ _ Htok), Hacc. simpl.
    unfold request, bind, emit, lift. simpl. simpl in Hchk. rewrite Hchk. simpl.
    destruct (assoc "error" kvs) as [err |] eqn:He; simpl.
    + destruct (py_eq_str err "PAYMENT_NOTFOUND") eqn:Hp; simpl.
      * apply py_eq_str_true in Hp. subst err. now contradiction Herr.
      * now rewrite Hrows.
    + now rewrite Hrows.
Qed.

Lemma check_malformed_answer_witness :
  fst (check (env_invoice (inr (JArr []))) sample_qpay INV_1 empty_world)
    = inl AttributeError /\
  fst (check (env_invoice (inr (JObj [("count", JNum 0)]))) sample_qpay INV_1
         empty_world)
    = inl (KeyError "rows").
Proof.
  split.
  - destruct (check_malformed_answer (env_invoice (inr (JArr []))) sample_qpay
                INV_1 empty_world (JObj [("access_token", JStr "t0k")]) "t0k"
                (JArr []) eq_refl eq_refl eq_refl) as (H & _).
    apply H. intros kvs E. discriminate E.
  - destruct (check_malformed_answer
                (env_invoice (inr (JObj [("count", JNum 0)]))) sample_qpay
                INV_1 empty_world (JObj [("access_token", JStr "t0k")]) "t0k"
                (JObj [("count", JNum 0)]) eq_refl eq_refl eq_refl) as (_ & H).
    apply (H [("count", JNum 0)]); try reflexivity. discriminate.
Defined.

(** The scan stops at the first row it cannot read: when a row without a
    [payment_status] comes before any paid row, [check] raises the
    [KeyError] of that row, also when a paid row follows it. *)
Theorem check_stops_at_unreadable_row
    (env : Env) (self : Qpay) (order_id : pyid) (w : World)
    (tokres : json) (tok : string) (res err : json)
    (pre post : list json) (bad : json) (e : exn) :
  http env (token_request self) = inr tokres ->
  getitem tokres "access_token" = inr (JStr tok) ->
  http env (check_request self ("Bearer " ++ tok) order_id) = inr res ->
  dict_get res "error" = inr err ->
  err <> JStr "PAYMENT_NOTFOUND" ->
  getitem res "rows" = inr (JArr (pre ++ bad :: post)) ->
  Forall (fun r => exists st, getitem r "payment_status" = inr st /\
                              py_eq_str st "PAID" = false) pre ->
  getitem bad "payment_status" = inl e ->
  fst (check env self order_id w) = inl e.
Proof.
  intros Htok Hacc Hchk Herr Hne Hrows Hpre Hbad.
  assert (py_eq_str err "PAYMENT_NOTFOUND" = false) as Hneq.
  { destruct (py_eq_str err "PAYMENT_NOTFOUND") eqn:E; [| reflexivity].
    apply py_eq_str_true in E. contradiction. }
  rewrite (check_eval_rows env self order_id w tokres tok res Htok Hacc Hchk
             err (JArr (pre ++ bad :: post)) (pre ++ bad :: post)
             Herr Hneq Hrows eq_refl).
  now rewrite (scan_rows_stops pre post bad e Hpre Hbad).
Qed.

Lemma check_stops_at_unreadable_row_witness :
  fst (check (env_invoice
                (inr (rows_body [new_row; JObj [("payment_id", JStr "1")];
                                 paid_row_succeeded])))
             sample_qpay INV_1 empty_world)
    = inl (KeyError "payment_status").
Proof.
  apply (check_stops_at_unreadable_row
           (env_invoice
              (inr (rows_body [new_row; JObj [("payment_id", JStr "1")];
                               paid_row_succeeded])))
           sample_qpay INV_1 empty_world
           (JObj [("access_token", JStr "t0k")]) "t0k"
           (rows_body [new_row; JObj [("payment_id", JStr "1")];
                       paid_row_succeeded])
           JNull [new_row] [paid_row_succeeded]
           (JObj [("payment_id", JStr "1")]) (KeyError "payment_status"));
    try reflexivity.
  - discriminate.
  - repeat constructor. exists (JStr "NEW"). now split.
Defined.

(* ================================================================== *)
(** ** Confirmation and refund: the basket, the record and the audit *)

Lemma confirm_not_paid_without_basket
    (env : Env) (self : Qpay) (pid : pyid) (w w1 : World) :
  check env self pid w = (inr NOT_PAID, w1) ->
  handle_processor_response env self pid None w =
  match audit_write env (audit_row NOT_PAID pid None) with
  | Some e => (inl e, add_events w1 [AuditWrite (audit_row NOT_PAID pid None)])
  | None =>
      (inl AttributeError,
       add_audit_row (add_events w1 [AuditWrite (audit_row NOT_PAID pid None)])
                     (audit_row NOT_PAID pid None))
  end.
Proof.
  intro H. unfold handle_processor_response, bind. rewrite H. simpl.
  unfold record_processor_response, bind, emit. fold (audit_row NOT_PAID pid None).
  destruct (audit_write env (audit_row NOT_PAID pid None)); reflexivity.
Qed.

(** Called without a basket (the default [basket=None]), a confirmation
    never returns a payment record. On the not-paid path it still writes
    the audit row, with no basket attached, and then fails with
    [AttributeError] where [OrderNotPaidException] was due. *)
Theorem confirm_without_basket_never_returns
    (env : Env) (self : Qpay) (pid : pyid) (w : World) :
  (forall h, fst (handle_processor_response env self pid None w) <> inr h)
  /\
  (fst (check env self pid w) = inr NOT_PAID ->
   audit_write env (audit_row NOT_PAID pid None) = None ->
   fst (handle_processor_response env self pid None w) = inl AttributeError /\
   audit_log (snd (handle_processor_response env self pid None w))
     = (audit_log w ++ [audit_row NOT_PAID pid None])%list).
Proof.
  destruct (only_http_audit (check env self pid) w (only_http_check env self pid))
    as (_ & Hlog & _).
  destruct (check env self pid w) as [[e | row] w1] eqn:Hc; simpl in Hlog |- *.
  - rewrite (confirm_check_failed _ _ _ _ _ _ e Hc). simpl.
    split; [intros h H; discriminate H | intro H; discriminate H].
  - destruct (check_returns env self pid w row) as [-> | Hpaid];
      [now rewrite Hc | |].
    + rewrite (confirm_not_paid_without_basket _ _ _ _ _ Hc).
      split.
      * intros h. destruct (audit_write env _); discriminate.
      * intros _ Ha. rewrite Ha. simpl. now rewrite Hlog.
    + pose proof (is_paid_status _ Hpaid) as Hst.
      rewrite (confirm_paid _ _ _ _ _ _ _ Hc Hst).
      split.
      * intro h. destruct (getitem row "status") as [e | s]; [discriminate |].
        destruct (py_eq_str s "succeeded"); [| discriminate].
        unfold bind.
        destruct (record_processor_response env row pid None w1) as [[e | []] w2];
          discriminate.
      * intros H. injection H as ->. discriminate Hpaid.
Qed.

Lemma confirm_without_basket_never_returns_witness :
  fst (handle_processor_response env_notfound sample_qpay INV_1 None empty_world)
    = inl AttributeError /\
  audit_log (snd (handle_processor_response env_notfound sample_qpay INV_1 None
                    empty_world))
    = [audit_row NOT_PAID INV_1 None].
Proof.
  destruct (confirm_without_basket_never_returns env_notfound sample_qpay INV_1
              empty_world) as (_ & H).
  exact (H eq_refl eq_refl).
Defined.

(** The record a confirmation returns is built from the invoice id and
    the basket alone: the total and the currency are the basket's, the
    card label is "Qpay", and nothing is taken from the paid row, whose
    amount is never compared with the basket's total. *)
Theorem confirm_record_comes_from_basket
    (env : Env) (self : Qpay) (pid : pyid) (b : Basket) (w : World)
    (h : HandledProcessorResponse) :
  fst (handle_processor_response env self pid (Some b) w) = inr h ->
  h = {| transaction_id := pid;
         total := total_incl_tax b;
         hpr_currency := currency b;
         card_number := "Qpay";
         card_type := pid |}.
Proof.
  destruct (check env self pid w) as [[e | row] w1] eqn:Hc.
  - rewrite (confirm_check_failed _ _ _ _ _ _ e Hc). discriminate.
  - destruct (check_returns env self pid w row) as [-> | Hpaid];
      [now rewrite Hc | |].
    + rewrite (confirm_not_paid _ _ _ _ _ _ b Hc eq_refl).
      destruct (audit_write env _); discriminate.
    + pose proof (is_paid_status _ Hpaid) as Hst.
      rewrite (confirm_paid _ _ _ _ _ _ _ Hc Hst).
      destruct (getitem row "status") as [e | s]; [discriminate |].
      destruct (py_eq_str s "succeeded"); [| discriminate].
      unfold bind.
      destruct (record_processor_response env row pid (Some b) w1)
        as [[e | []] w2]; [discriminate |].
      simpl. intro H. now injection H as <-.
Qed.

Lemma confirm_record_comes_from_basket_witness :
  {| transaction_id := INV_1;
     total := PyDecimal.mk false 19995 (-3);
     hpr_currency := "MNT";
     card_number := "Qpay";
     card_type := INV_1 |}
  = {| transaction_id := INV_1;
       total := total_incl_tax sample_basket;
       hpr_currency := currency sample_basket;
       card_number := "Qpay";
       card_type := INV_1 |}.
Proof.
  apply (confirm_record_comes_from_basket env_paid_succeeded sample_qpay INV_1
           sample_basket empty_world).
  reflexivity.
Defined.

(** What [issue_credit] does once the gateway's refund call has returned. *)
Lemma issue_credit_refund_returned
    (env : Env) (self : Qpay) (order_no : string) (basket : option Basket)
    (ref : pyid) (amount : PyDecimal.t) (cur : string) (w w1 : World) (r : json) :
  refund env self ref w = (inr r, w1) ->
  issue_credit env self order_no basket ref amount cur w =
  match audit_write env (audit_row r ref basket) with
  | Some e => (inl e, add_events w1 [AuditWrite (audit_row r ref basket)])
  | None =>
      (inr ref,
       add_audit_row (add_events w1 [AuditWrite (audit_row r ref basket)])
                     (audit_row r ref basket))
  end.
Proof.
  intro H. unfold issue_credit, bind, try_except. rewrite H.
  unfold record_processor_response, bind, emit. fold (audit_row r ref basket).
  destruct (audit_write env (audit_row r ref basket)); reflexivity.
Qed.

(** Every refund attempt asks for exactly one audit write, whether the
    gateway call failed or returned and whether the write itself goes
    through; the audit table gains at most one row, and that row carries
    the reference number and the basket of the call. *)
Theorem issue_credit_audits_every_attempt
    (env : Env) (self : Qpay) (order_no : string) (basket : option Basket)
    (ref : pyid) (amount : PyDecimal.t) (cur : string) (w : World) :
  let out := issue_credit env self order_no basket ref amount cur w in
  audit_writes (snd out) = S (audit_writes w) /\
  (audit_log (snd out) = audit_log w \/
   exists resp,
     audit_log (snd out) = (audit_log w ++ [audit_row resp ref basket])%list).
Proof.
  intro out. subst out.
  destruct (only_http_audit (refund env self ref) w (only_http_refund env self ref))
    as (Hn & Hlog & _).
  destruct (refund env self ref w) as [[e | r] w1] eqn:Hr; simpl in Hn, Hlog.
  - rewrite (issue_credit_refund_failed _ _ order_no basket _ amount cur _ _ _ Hr).
    destruct (audit_write env _); cbn [fst snd]; count_audit_writes;
      rewrite Hn; simpl; rewrite Hlog.
    + split; [lia | now left].
    + split; [lia | right; now exists (JObj [])].
  - rewrite (issue_credit_refund_returned _ _ order_no basket _ amount cur _ _ _ Hr).
    destruct (audit_write env _); cbn [fst snd]; count_audit_writes;
      rewrite Hn; simpl; rewrite Hlog.
    + split; [lia | now left].
    + split; [lia | right; now exists r].
Qed.

(** [issue_credit] never looks into the gateway's answer: whatever decoded
    body the refund call returns, an error report included, the call
    records that body and returns the reference number as the
    transaction id (given that the audit table accepts the write). *)
Theorem issue_credit_accepts_any_answer
    (env : Env) (self : Qpay) (order_no : string) (basket : option Basket)
    (ref : pyid) (amount : PyDecimal.t) (cur : string) (w : World) (r : json) :
  fst (refund env self ref w) = inr r ->
  audit_write env (audit_row r ref basket) = None ->
  let out := issue_credit env self order_no basket ref amount cur w in
  fst out = inr ref /\
  audit_log (snd out) = (audit_log w ++ [audit_row r ref basket])%list.
Proof.
  intros Hret Haudit out. subst out.
  destruct (only_http_audit (refund env self ref) w (only_http_refund env self ref))
    as (_ & Hlog & _).
  destruct (refund env self ref w) as [x w1] eqn:Hr. simpl in Hret, Hlog. subst x.
  rewrite (issue_credit_refund_returned _ _ order_no basket _ amount cur _ _ _ Hr),
    Haudit.
  simpl. now rewrite Hlog.
Qed.

Lemma issue_credit_accepts_any_answer_witness :
  fst (issue_credit
         (env_invoice (inr (JObj [("error", JStr "PAYMENT_NOTFOUND")])))
         sample_qpay "EDX-100007" (Some sample_basket) INV_1
         (PyDecimal.mk false 19995 (-3)) "MNT" empty_world)
    = inr INV_1.
Proof.
  destruct (issue_credit_accepts_any_answer
              (env_invoice (inr (JObj [("error", JStr "PAYMENT_NOTFOUND")])))
              sample_qpay "EDX-100007" (Some sample_basket) INV_1
              (PyDecimal.mk false 19995 (-3)) "MNT" empty_world
              (JObj [("error", JStr "PAYMENT_NOTFOUND")]) eq_refl eq_refl)
    as (H & _).
  exact H.
Defined.

(* ================================================================== *)
(** ** The views: the submit view and the basket lookup *)

(** [QpayCheckView] cannot settle a payment: its [payment_processor] is
    the string "qpay", so the payment step raises [AttributeError] at
    once. When the two attribute updates go through, [form_valid] answers
    400 with the not-paid message, having sent nothing to the gateway,
    written nothing to the audit table and placed no order. *)
Theorem form_valid_never_settles
    (env : Env) (form : QpaySubmitForm) (POST : json) (w : World) :
  add_organization_attribute env (cleaned_basket form) = None ->
  add_payment_intent_attribute env (cleaned_basket form) POST = None ->
  form_valid env form POST w =
  (inr (JsonResponse (JObj [("error", JStr NOT_PAID_MESSAGE)]) 400),
   add_events w
     [AddOrganizationAttribute (cleaned_basket form);
      AddPaymentIntentAttribute (cleaned_basket form) POST;
      Log EXCEPTION "An error occurred while processing the QPay payment for basket [%d]."]).
Proof.
  intros Horg Hpi.
  unfold form_valid, bind, external, bind, emit, try_except.
  rewrite Horg. simpl. rewrite Hpi. simpl.
  unfold logger, emit, add_events. simpl.
  now rewrite <- !app_assoc.
Qed.

Lemma form_valid_never_settles_witness :
  fst (form_valid env_paid_succeeded sample_form (JObj []) world_one_basket)
    = inr (JsonResponse (JObj [("error", JStr NOT_PAID_MESSAGE)]) 400).
Proof.
  now rewrite (form_valid_never_settles env_paid_succeeded sample_form (JObj [])
                 world_one_basket eq_refl eq_refl).
Defined.

(** [_get_basket] never raises, as its docstring says: it returns a basket
    or logs and returns [None]. It returns a basket only when exactly one
    attribute row matches the invoice id, and then it is the basket of
    that row, and the offers and the organization attribute were applied
    to it without error. *)
Theorem get_basket_never_raises
    (env : Env) (attr : string) (pid : pyid) (w : World) :
  exists ob,
    fst (_get_basket env attr pid w) = inr ob /\
    (forall b, ob = Some b ->
       exists a,
         filter (attribute_matches attr pid) (basket_attributes w) = [a] /\
         attr_basket a = b /\
         apply_offers env b = None /\
         add_organization_attribute env b = None).
Proof.
  unfold _get_basket, try_except, bind, objects_get.
  destruct (filter (attribute_matches attr pid) (basket_attributes w))
    as [| a [| a' rest]]; simpl.
  - exists None. split; [reflexivity | intros b H; discriminate H].
  - unfold external, bind, emit. simpl.
    destruct (apply_offers env (attr_basket a)) as [e |] eqn:Ha; simpl.
    + exists None. destruct e; simpl;
        (split; [reflexivity | intros b H; discriminate H]).
    + destruct (add_organization_attribute env (attr_basket a)) as [e |] eqn:Ho;
        simpl.
      * exists None. destruct e; simpl;
          (split; [reflexivity | intros b H; discriminate H]).
      * exists (Some (attr_basket a)). split; [reflexivity |].
        intros b H. injection H as <-. exists a. now repeat split.
  - exists None. split; [reflexivity | intros b H; discriminate H].
Qed.

Lemma filter_matches_none (attr : string) (table : list BasketAttribute) :
  filter (attribute_matches attr None) table = [].
Proof.
  induction table as [| a table IH]; simpl; [reflexivity |].
  unfold attribute_matches at 1. now rewrite andb_false_r.
Qed.

(** A callback whose invoice id matches no basket attribute, in particular
    one that carries no [qpay_payment_id] at all, is answered with the
    redirect to the processor's error page after two log lines, and
    nothing else happens. When the processor's configuration has no
    [error_path], the view raises [KeyError('error_path')] instead of
    answering. *)
Theorem callback_for_unknown_invoice
    (env : Env) (attr : string) (step : pyid -> Basket -> M unit)
    (processor : Qpay)
    (query_params : list (string * string)) (w : World) :
  assoc "qpay_payment_id" query_params = None \/
  filter (attribute_matches attr (assoc "qpay_payment_id" query_params))
         (basket_attributes w) = [] ->
  let logged :=
    add_events w
      [Log WARNING "Could not find payment_intent_id [%s] among baskets.";
       Log INFO "Received QPAY payment notification for non-existent basket with payment intent id [%s]."] in
  (forall path,
     config_item processor "error_path" = inr path ->
     get env attr step processor query_params w =
     (inr (redirect (get_ecommerce_url env path)), logged))
  /\
  (assoc "error_path" (configuration processor) = None ->
   get env attr step processor query_params w = (inl (KeyError "error_path"), logged)).
Proof.
  intros Hnone logged. subst logged.
  assert (filter (attribute_matches attr (assoc "qpay_payment_id" query_params))
                 (basket_attributes w) = []) as Hf.
  { destruct Hnone as [-> | H]; [apply filter_matches_none | exact H]. }
  assert (_get_basket env attr (assoc "qpay_payment_id" query_params) w =
          (inr None,
           add_events w [Log WARNING "Could not find payment_intent_id [%s] among baskets."]))
    as Hgb.
  { unfold _get_basket, try_except, bind, objects_get. now rewrite Hf. }
  split.
  - intros path Hpath. unfold get. unfold bind at 1. rewrite Hgb.
    unfold bind, logger, emit, error_url, bind, lift. rewrite Hpath. simpl.
    now rewrite add_events_app.
  - intro Hmiss. unfold get. unfold bind at 1. rewrite Hgb.
    unfold bind, logger, emit, error_url, bind, lift, config_item.
    rewrite Hmiss. simpl. now rewrite add_events_app.
Qed.

Lemma callback_for_unknown_invoice_witness :
  fst (get env_notfound "payment_intent_id"
           (sample_payment_step env_notfound sample_qpay) sample_qpay callback_query_without_id
         world_one_basket)
    = inr (HttpResponseRedirect "https://ecommerce.example/checkout/error/") /\
  fst (get env_notfound "payment_intent_id"
           (sample_payment_step env_notfound sample_qpay_unconfigured) sample_qpay_unconfigured
         callback_query empty_world)
    = inl (KeyError "error_path").
Proof.
  split.
  - destruct (callback_for_unknown_invoice env_notfound "payment_intent_id"
                (sample_payment_step env_notfound sample_qpay)
                sample_qpay callback_query_without_id world_one_basket
                (or_introl eq_refl)) as (H & _).
    now rewrite (H "/checkout/error/" eq_refl).
  - destruct (callback_for_unknown_invoice env_notfound "payment_intent_id"
                (sample_payment_step env_notfound sample_qpay_unconfigured)
                sample_qpay_unconfigured callback_query empty_world
                (or_intror eq_refl)) as (_ & H).
    now rewrite (H eq_refl).
Defined.

(** ** The callback view once the basket lookup is done *)

Lemma get_eval_raised
    (env : Env) (attr : string) (step : pyid -> Basket -> M unit)
    (processor : Qpay) (query_params : list (string * string))
    (w w1 : World) (e : exn) :
  _get_basket env attr (assoc "qpay_payment_id" query_params) w = (inl e, w1) ->
  get env attr step processor query_params w = (inl e, w1).
Proof. intro H. unfold get. unfold bind at 1. now rewrite H. Qed.

Lemma get_eval_found
    (env : Env) (attr : string) (step : pyid -> Basket -> M unit)
    (processor : Qpay) (query_params : list (string * string))
    (w w1 : World) (b : Basket) :
  _get_basket env attr (assoc "qpay_payment_id" query_params) w
    = (inr (Some b), w1) ->
  get env attr step processor query_params w =
  match step (assoc "qpay_payment_id" query_params) b
          (add_events w1 [Log INFO "%s called for QPAY payment intent id [%s], basket [%d] with status [%s], and order number [%s]."]) with
  | (inl _, w3) => (inr qpay_error_response, w3)
  | (inr _, w3) =>
      match create_order env b with
      | inl _ =>
          (inr error_page_response,
           add_events w3
             [CreateOrder b;
              Log EXCEPTION "Error processing order for transaction [%s], with order [%s] and basket [%d]. Processed by [%s]."])
      | inr order =>
          match handle_post_order env order with
          | Some _ =>
              (inr error_page_response,
               add_events w3
                 [CreateOrder b; HandlePostOrder order;
                  Log EXCEPTION "Error processing order for transaction [%s], with order [%s] and basket [%d]. Processed by [%s]."])
          | None =>
              (match get_receipt_page_url env (order_number b) with
               | inl e => inl e
               | inr u =>
                   inr (JsonResponse (JObj [("receipt_page_url", JStr u)]) 201)
               end,
               add_events w3 [CreateOrder b; HandlePostOrder order])
          end
      end
  end.
Proof.
  intro Hgb. unfold get. unfold bind at 1. rewrite Hgb.
  unfold bind at 1. unfold logger at 1, emit at 1.
  unfold bind at 1, try_except at 1, atomic, try_except at 1, bind at 1.
  destruct (step (assoc "qpay_payment_id" query_params) b
              (add_events w1 [Log INFO "%s called for QPAY payment intent id [%s], basket [%d] with status [%s], and order number [%s]."]))
    as [[e | []] w3]; [reflexivity |].
  simpl. unfold bind at 1, try_except, bind at 1, do_create_order, bind, emit, lift.
  simpl.
  destruct (create_order env b) as [e | order]; simpl.
  - now rewrite add_events_app.
  - unfold external, bind, emit. simpl.
    destruct (handle_post_order env order); simpl.
    + now rewrite !add_events_app.
    + unfold receipt_page_response, bind, lift. rewrite !add_events_app. simpl.
      now destruct (get_receipt_page_url env (order_number b)).
Qed.

Lemma get_basket_found
    (env : Env) (attr : string) (pid : pyid) (w : World) (a : BasketAttribute) :
  filter (attribute_matches attr pid) (basket_attributes w) = [a] ->
  apply_offers env (attr_basket a) = None ->
  add_organization_attribute env (attr_basket a) = None ->
  _get_basket env attr pid w =
  (inr (Some (attr_basket a)),
   add_events w
     [ApplyOffers (attr_basket a);
      Log INFO "Applicator applied, basket id: [%s]. Processed by [%s].";
      AddOrganizationAttribute (attr_basket a)]).
Proof.
  intros Hf Hoff Horg.
  unfold _get_basket, try_except, bind, objects_get. rewrite Hf. simpl.
  unfold external, bind, emit. simpl. rewrite Hoff. simpl. rewrite Horg. simpl.
  now rewrite !add_events_app.
Qed.

(** When the order cannot be placed after the payment step went through,
    the callback view answers 400 and logs; it sends nothing more to the
    gateway, so the settled payment is not refunded. *)
Theorem order_failure_after_payment_is_not_compensated
    (env : Env) (attr : string) (step : pyid -> Basket -> M unit)
    (processor : Qpay) (query_params : list (string * string))
    (w w1 w3 : World) (b : Basket) (e : exn) :
  _get_basket env attr (assoc "qpay_payment_id" query_params) w
    = (inr (Some b), w1) ->
  step (assoc "qpay_payment_id" query_params) b
    (add_events w1 [Log INFO "%s called for QPAY payment intent id [%s], basket [%d] with status [%s], and order number [%s]."])
    = (inr tt, w3) ->
  create_order env b = inl e ->
  let out := get env attr step processor query_params w in
  fst out = inr error_page_response /\
  snd out =
    add_events w3
      [CreateOrder b;
       Log EXCEPTION "Error processing order for transaction [%s], with order [%s] and basket [%d]. Processed by [%s]."] /\
  filter is_http (trace (snd out)) = filter is_http (trace w3) /\
  audit_log (snd out) = audit_log w3.
Proof.
  intros Hgb Hpay Hord out. subst out.
  rewrite (get_eval_found env attr step processor query_params w w1 b Hgb),
    Hpay, Hord.
  cbn [fst snd]. repeat split.
  unfold add_events; simpl. rewrite filter_app. simpl. now rewrite app_nil_r.
Qed.

Lemma order_failure_after_payment_is_not_compensated_witness :
  fst (get env_paid_order_down "payment_intent_id"
         (sample_payment_step env_paid_order_down sample_qpay) sample_qpay
         callback_query world_one_basket) = inr error_page_response /\
  audit_log (snd (get env_paid_order_down "payment_intent_id"
                    (sample_payment_step env_paid_order_down sample_qpay)
                    sample_qpay callback_query world_one_basket))
    = [audit_row paid_row_succeeded INV_1 (Some sample_basket)].
Proof.
  destruct (order_failure_after_payment_is_not_compensated env_paid_order_down
              "payment_intent_id"
              (sample_payment_step env_paid_order_down sample_qpay)
              sample_qpay callback_query world_one_basket
              (snd (_get_basket env_paid_order_down "payment_intent_id" INV_1
                      world_one_basket))
              (snd (handle_payment env_paid_order_down
                      (ProcessorInstance sample_qpay) INV_1 sample_basket
                      (add_events
                         (snd (_get_basket env_paid_order_down "payment_intent_id"
                                 INV_1 world_one_basket))
                         [Log INFO "%s called for QPAY payment intent id [%s], basket [%d] with status [%s], and order number [%s]."])))
              sample_basket (OtherError "UnableToPlaceOrder")
              eq_refl eq_refl eq_refl) as (H1 & _ & _ & H4).
  split; [exact H1 |]. rewrite H4. reflexivity.
Defined.



(** The way to a receipt. When exactly one basket attribute carries the
    invoice id, the basket is set up without error, the payment step
    returns, the order is placed and the post-order handling goes through,
    the callback view answers 201 with the receipt URL (or raises what
    building that URL raises). The basket is set up before the payment
    step runs, and after the step the order is placed and then handled,
    in this order, with nothing else in between. *)
Theorem callback_places_order_after_payment_step
    (env : Env) (attr : string) (step : pyid -> Basket -> M unit)
    (processor : Qpay) (query_params : list (string * string))
    (w w3 : World) (a : BasketAttribute) (order : string) :
  let pid := assoc "qpay_payment_id" query_params in
  let b := attr_basket a in
  filter (attribute_matches attr pid) (basket_attributes w) = [a] ->
  apply_offers env b = None ->
  add_organization_attribute env b = None ->
  step pid b
    (add_events w
       [ApplyOffers b;
        Log INFO "Applicator applied, basket id: [%s]. Processed by [%s].";
        AddOrganizationAttribute b;
        Log INFO "%s called for QPAY payment intent id [%s], basket [%d] with status [%s], and order number [%s]."])
    = (inr tt, w3) ->
  create_order env b = inr order ->
  handle_post_order env order = None ->
  let out := get env attr step processor query_params w in
  trace (snd out) = (trace w3 ++ [CreateOrder b; HandlePostOrder order])%list /\
  (forall receipt,
     get_receipt_page_url env (order_number b) = inr receipt ->
     fst out = inr (JsonResponse (JObj [("receipt_page_url", JStr receipt)]) 201)) /\
  (forall e,
     get_receipt_page_url env (order_number b) = inl e -> fst out = inl e).
Proof.
  intros pid b Hf Hoff Horg Hpay Hord Hpost out. subst out.
  pose proof (get_basket_found env attr pid w a Hf Hoff Horg) as Hgb.
  fold b in Hgb.
  rewrite (get_eval_found env attr step processor query_params w _ b Hgb).
  fold pid. rewrite add_events_app. simpl app. rewrite Hpay, Hord, Hpost.
  cbn [fst snd]. split; [reflexivity |].
  split.
  - intros receipt Hurl. now rewrite Hurl.
  - intros e Hurl. now rewrite Hurl.
Qed.

Lemma callback_places_order_after_payment_step_witness :
  fst (get env_paid_succeeded "payment_intent_id"
         (sample_payment_step env_paid_succeeded sample_qpay) sample_qpay
         callback_query world_one_basket)
    = inr (JsonResponse
             (JObj [("receipt_page_url",
                     JStr "https://ecommerce.example/receipt/EDX-100007")]) 201).
Proof.
  destruct (callback_places_order_after_payment_step env_paid_succeeded
              "payment_intent_id"
              (sample_payment_step env_paid_succeeded sample_qpay) sample_qpay
              callback_query world_one_basket
              (snd (sample_payment_step env_paid_succeeded sample_qpay INV_1
                      sample_basket
                      (add_events world_one_basket
                         [ApplyOffers sample_basket;
                          Log INFO "Applicator applied, basket id: [%s]. Processed by [%s].";
                          AddOrganizationAttribute sample_basket;
                          Log INFO "%s called for QPAY payment intent id [%s], basket [%d] with status [%s], and order number [%s]."])))
              {| attribute_type := "payment_intent_id"; value_text := "INV-1";
                 attr_basket := sample_basket |}
              "EDX-100007" eq_refl eq_refl eq_refl eq_refl eq_refl eq_refl)
    as (_ & H & _).
  exact (H "https://ecommerce.example/receipt/EDX-100007" eq_refl).
Defined.

(* ================================================================== *)
(** ** The capture context of a basket with lines *)

Lemma create_eval
    (env : Env) (self : Qpay) (basket : Basket) (w : World)
    (tokres : json) (tok : string) :
  http env (token_request self) = inr tokres ->
  getitem tokres "access_token" = inr (JStr tok) ->
  create env self basket w =
  (http env (create_request self ("Bearer " ++ tok) basket),
   add_events w [Http (token_request self);
                 Http (create_request self ("Bearer " ++ tok) basket)]).
Proof.
  intros Htok Hacc. unfold create, bind.
  rewrite (token_eval _ _ _ _ Htok), Hacc. simpl.
  unfold request, bind, emit, lift. simpl. rewrite add_events_app. simpl.
  now destruct (http env (create_request self _ basket)).
Qed.

Section CaptureContext.

Variables (env : Env) (self : Qpay) (w : World) (b : Basket).
Variables (tokres : json) (tok : string) (res invoice_id : json).
Hypothesis Hbasket : get_basket env = inr b.
Hypothesis Hlines : lines b <> [].
Hypothesis Htoken : http env (token_request self) = inr tokres.
Hypothesis Haccess : getitem tokres "access_token" = inr (JStr tok).
Hypothesis Hinvoice :
  http env (create_request self ("Bearer " ++ tok) b) = inr res.
Hypothesis Hid : getitem res "invoice_id" = inr invoice_id.
Hypothesis Hstore : add_payment_intent_attribute env b invoice_id = None.

Let stored : World :=
  add_events w
    [Log INFO "*** GETTING QPAY RESPONSE ***";
     Http (token_request self);
     Http (create_request self ("Bearer " ++ tok) b);
     Log INFO "*** QPAY RESPONSE %s ***";
     AddPaymentIntentAttribute b invoice_id].

Lemma capture_context_eval :
  get_capture_context env self w =
  (match getitem res "qPay_shortUrl" with
   | inl e => inl e
   | inr qpay_link =>
       match getitem res "qr_image" with
       | inl e => inl e
       | inr qpay_qr =>
           inr (JObj [("invoice_id", invoice_id);
                      ("qpay_link", qpay_link);
                      ("qpay_qr", qpay_qr);
                      ("order_id", JStr (order_number b))])
       end
   end, stored).
Proof.
  unfold get_capture_context. unfold bind at 1. rewrite Hbasket. simpl.
  destruct (lines b) as [| l ls] eqn:El; [contradiction |]. simpl.
  unfold bind at 1. unfold bind at 1. unfold logger at 1, emit at 1.
  unfold bind at 1.
  rewrite (create_eval env self b _ tokres tok Htoken Haccess), Hinvoice.
  unfold bind at 1. unfold logger at 1, emit at 1.
  unfold bind at 1. rewrite Hid. simpl.
  unfold bind at 1. unfold external, bind, emit. simpl. rewrite Hstore. simpl.
  unfold bind, lift. rewrite Hid. simpl.
  rewrite !add_events_app. simpl. unfold stored.
  destruct (getitem res "qPay_shortUrl") as [e | l']; simpl; [reflexivity |].
  now destruct (getitem res "qr_image").
Qed.

(** For a basket with lines, when the gateway hands out a token and
    answers the invoice request with an invoice id, a short link and a QR
    image, the create view answers 201 with exactly these three values and
    the basket's order number. One invoice request was sent, and the
    invoice id was stored on the basket before the answer was built. *)
Theorem capture_context_for_invoice (qpay_link qpay_qr : json) :
  getitem res "qPay_shortUrl" = inr qpay_link ->
  getitem res "qr_image" = inr qpay_qr ->
  post env self w =
  (inr (JsonResponse
          (JObj [("invoice_id", invoice_id);
                 ("qpay_link", qpay_link);
                 ("qpay_qr", qpay_qr);
                 ("order_id", JStr (order_number b))]) 201),
   add_events w
     [Log INFO "*** GETTING QPAY RESPONSE ***";
      Http (token_request self);
      Http (create_request self ("Bearer " ++ tok) b);
      Log INFO "*** QPAY RESPONSE %s ***";
      AddPaymentIntentAttribute b invoice_id]).
Proof.
  intros Hl Hq. unfold post, bind. rewrite capture_context_eval, Hl, Hq.
  reflexivity.
Qed.

(** When the answer to the invoice request carries an invoice id but no
    short link (or no QR image), the capture context fails with the
    [KeyError] only after the invoice was created at the gateway and its
    id stored on the basket: the failed call leaves both behind. *)
Theorem capture_context_fails_after_storing_invoice (e : exn) :
  getitem res "qPay_shortUrl" = inl e \/
  ((exists l, getitem res "qPay_shortUrl" = inr l) /\
   getitem res "qr_image" = inl e) ->
  get_capture_context env self w =
  (inl e,
   add_events w
     [Log INFO "*** GETTING QPAY RESPONSE ***";
      Http (token_request self);
      Http (create_request self ("Bearer " ++ tok) b);
      Log INFO "*** QPAY RESPONSE %s ***";
      AddPaymentIntentAttribute b invoice_id]).
Proof.
  intros [Hl | [(l & Hl) Hq]]; rewrite capture_context_eval, Hl;
    [| rewrite Hq]; reflexivity.
Qed.

End CaptureContext.

Lemma capture_context_for_invoice_witness :
  fst (post (env_invoice (inr invoice_body)) sample_qpay empty_world)
    = inr (JsonResponse
             (JObj [("invoice_id", JStr "INV-1");
                    ("qpay_link", JStr "https://s.qpay.mn/abc");
                    ("qpay_qr", JStr "iVBORw0KGgo");
                    ("order_id", JStr "EDX-100007")]) 201).
Proof.
  rewrite (capture_context_for_invoice (env_invoice (inr invoice_body))
             sample_qpay empty_world sample_basket
             (JObj [("access_token", JStr "t0k")]) "t0k" invoice_body
             (JStr "INV-1") eq_refl ltac:(discriminate) eq_refl eq_refl eq_refl
             eq_refl eq_refl (JStr "https://s.qpay.mn/abc") (JStr "iVBORw0KGgo")
             eq_refl eq_refl).
  reflexivity.
Defined.

Lemma capture_context_fails_after_storing_invoice_witness :
  fst (get_capture_context (env_invoice (inr invoice_body_without_link))
         sample_qpay empty_world) = inl (KeyError "qPay_shortUrl") /\
  In (AddPaymentIntentAttribute sample_basket (JStr "INV-1"))
     (trace (snd (get_capture_context
                    (env_invoice (inr invoice_body_without_link))
                    sample_qpay empty_world))).
Proof.
  rewrite (capture_context_fails_after_storing_invoice
             (env_invoice (inr invoice_body_without_link))
             sample_qpay empty_world sample_basket
             (JObj [("access_token", JStr "t0k")]) "t0k"
             invoice_body_without_link
             (JStr "INV-1") eq_refl ltac:(discriminate) eq_refl eq_refl eq_refl
             eq_refl eq_refl (KeyError "qPay_shortUrl") (or_introl eq_refl)).
  split; [reflexivity |]. simpl. auto 10.
Defined.

(* ================================================================== *)
(** ** Amounts with at most two decimals, and the idempotency key *)

Lemma round_half_even_exact (q k : N) :
  PyDecimal.round_half_even (q * 10 ^ k) k = q.
Proof.
  unfold PyDecimal.round_half_even.
  assert (10 ^ k <> 0)%N as Hp by (apply N.pow_nonzero; discriminate).
  rewrite N.div_mul by exact Hp. rewrite N.Div0.mod_mul.
  replace (10 ^ k <? 2 * 0)%N with false
    by (symmetry; apply N.ltb_ge; lia).
  replace (2 * 0 =? 10 ^ k)%N with false
    by (symmetry; apply N.eqb_neq; lia).
  reflexivity.
Qed.

Lemma get_basket_amount_for_prices (b : Basket) :
  let d := total_incl_tax b in
  -2 <= PyDecimal.exponent d <= 0 ->
  (PyDecimal.coeff d * 100 < 10 ^ PyDecimal.prec)%N ->
  _get_basket_amount b =
    (if PyDecimal.sign d then "-" else EmptyString) ++
    PyDecimal.digits (PyDecimal.coeff d * 10 ^ Z.to_N (2 + PyDecimal.exponent d)).
Proof.
  intros d Hexp Hprec.
  unfold _get_basket_amount. fold d. rewrite (mul_int_exact d 100 Hprec).
  unfold PyDecimal.to_integral_value.
  cbn [PyDecimal.sign PyDecimal.coeff PyDecimal.exponent].
  assert (PyDecimal.exponent d = 0 \/ PyDecimal.exponent d = -1 \/
          PyDecimal.exponent d = -2) as [E | [E | E]] by lia;
    rewrite E.
  - change (0 <=? 0) with true. cbv iota. rewrite to_str_integral.
    change (Z.to_N (2 + 0)) with 2%N. now change (10 ^ 2)%N with 100%N.
  - change (0 <=? -1) with false. cbv iota. rewrite to_str_integral.
    change (Z.to_N (- -1)) with 1%N. change (Z.to_N (2 + -1)) with 1%N.
    replace (PyDecimal.coeff d * 100)%N
      with ((PyDecimal.coeff d * 10 ^ 1) * 10 ^ 1)%N by lia.
    now rewrite round_half_even_exact.
  - change (0 <=? -2) with false. cbv iota. rewrite to_str_integral.
    change (Z.to_N (- -2)) with 2%N. change (Z.to_N (2 + -2)) with 0%N.
    replace (PyDecimal.coeff d * 100)%N
      with ((PyDecimal.coeff d * 10 ^ 0) * 10 ^ 2)%N by lia.
    now rewrite round_half_even_exact.
Qed.

(** A total with at most two decimals (exponent 0, -1 or -2, as prices
    are stored) is converted without any rounding: the amount sent is the
    total's sign followed by a string of decimal digits, with no leading
    zero, that reads as the total in minor units, the coefficient scaled
    to two decimals. *)
Theorem get_basket_amount_exact_for_prices (b : Basket) :
  let d := total_incl_tax b in
  -2 <= PyDecimal.exponent d <= 0 ->
  (PyDecimal.coeff d * 100 < 10 ^ PyDecimal.prec)%N ->
  exists ds : string,
    _get_basket_amount b =
      (if PyDecimal.sign d then "-" else EmptyString) ++ ds
    /\ decimal_value ds
       = Some (PyDecimal.coeff d * 10 ^ Z.to_N (2 + PyDecimal.exponent d))%N
    /\ leading_zero ds = false.
Proof.
  intros d Hexp Hprec.
  exists (PyDecimal.digits
            (PyDecimal.coeff d * 10 ^ Z.to_N (2 + PyDecimal.exponent d))).
  split; [exact (get_basket_amount_for_prices b Hexp Hprec) |].
  split; [apply decimal_value_digits | apply leading_zero_digits].
Qed.

Lemma get_basket_amount_exact_for_prices_witness :
  exists ds : string,
    _get_basket_amount other_basket = ds /\ decimal_value ds = Some 4999%N.
Proof.
  destruct (get_basket_amount_exact_for_prices other_basket)
    as (ds & H1 & H2 & _);
    [ vm_compute; split; discriminate | reflexivity | ].
  exists ds. split; [exact H1 | exact H2].
Defined.

(** Two baskets get the same idempotency key exactly when they have the
    same order number. *)
Theorem idempotency_key_identifies_order (b1 b2 : Basket) :
  generate_basket_pi_idempotency_key b1 = generate_basket_pi_idempotency_key b2
  <-> order_number b1 = order_number b2.
Proof.
  unfold generate_basket_pi_idempotency_key. split.
  - simpl. intro H. now injection H.
  - now intros ->.
Qed.

(* ================================================================== *)
(** ** Instances *)

Lemma get_basket_never_raises_witness :
  exists ob,
    fst (_get_basket env_paid_succeeded "payment_intent_id" INV_1 world_one_basket)
      = inr ob /\
    (ob = Some sample_basket ->
     exists a,
       filter (attribute_matches "payment_intent_id" INV_1)
              (basket_attributes world_one_basket) = [a] /\
       attr_basket a = sample_basket).
Proof.
  destruct (get_basket_never_raises env_paid_succeeded "payment_intent_id" INV_1
              world_one_basket) as (ob & Hfst & Hsome).
  exists ob. split; [exact Hfst |].
  intro H. destruct (Hsome sample_basket H) as (a & Ha & Hb & _).
  exists a. split; [exact Ha | exact Hb].
Defined.

